(** * Bangladesh economic-indicator ETL: transform stage and warehouse load

    A shallow embedding of [scripts/transform_data.py]
    ([BangladeshDataTransformer]) and of the fact-table load of
    [scripts/load_to_warehouse.py] ([LocalDataWarehouse]), with the
    properties of the specification stated over it.

    Modelling conventions.
    - A pandas DataFrame in long format is the list of its rows, in row
      order.  A row is a record with the six columns of the raw artifact.
    - A float64 cell is a [float]: a rational, one of the two infinities, or
      NaN (pandas' null).  Arithmetic is exact on rationals (no rounding,
      no overflow, no signed zero) and follows IEEE 754 on the special
      values, so that [x / 0] is an infinity or NaN as in numpy.
    - Text cells are strings of bytes; [year] is an integer column, as the
      ingest stage writes it, so [astype(int)] is the identity on it.
    - A raised exception is a [Raise] result; [print] calls are events of
      a log. *)

From Stdlib Require Import ZArith QArith Qround Qpower Lqa List String Ascii Bool Lia
  Permutation Sorted.
Import ListNotations.

Open Scope string_scope.
Open Scope Z_scope.
Open Scope list_scope.

(** ** Floating-point cells *)

Module Float.

Inductive float : Type :=
| Fin (q : Q)
| PInf
| NInf
| NaN.

(** [pd.isna] / [Series.isnull]: only NaN is null; infinities are not. *)
Definition isna (x : float) : bool :=
  match x with NaN => true | _ => false end.

Definition notna (x : float) : bool := negb (isna x).

Definition is_finite (x : float) : bool :=
  match x with Fin _ => true | _ => false end.

Definition of_Z (z : Z) : float := Fin (inject_Z z).

Definition fneg (x : float) : float :=
  match x with
  | Fin q => Fin (Qred (- q))
  | PInf => NInf
  | NInf => PInf
  | NaN => NaN
  end.

Definition fadd (x y : float) : float :=
  match x, y with
  | NaN, _ | _, NaN => NaN
  | Fin a, Fin b => Fin (Qred (a + b))
  | PInf, NInf | NInf, PInf => NaN
  | PInf, _ | _, PInf => PInf
  | NInf, _ | _, NInf => NInf
  end.

Definition fsub (x y : float) : float := fadd x (fneg y).

(** Sign of a rational: [Lt], [Eq] or [Gt] with respect to zero. *)
Definition qsign (q : Q) : comparison := Qcompare q 0.

Definition fmul (x y : float) : float :=
  match x, y with
  | NaN, _ | _, NaN => NaN
  | Fin a, Fin b => Fin (Qred (a * b))
  | Fin a, PInf | PInf, Fin a =>
      match qsign a with Eq => NaN | Gt => PInf | Lt => NInf end
  | Fin a, NInf | NInf, Fin a =>
      match qsign a with Eq => NaN | Gt => NInf | Lt => PInf end
  | PInf, PInf | NInf, NInf => PInf
  | PInf, NInf | NInf, PInf => NInf
  end.

(** Division as numpy performs it: a non-zero number over zero is an
    infinity, zero over zero is NaN, no exception is raised. *)
Definition fdiv (x y : float) : float :=
  match x, y with
  | NaN, _ | _, NaN => NaN
  | Fin a, Fin b =>
      match qsign b with
      | Eq => match qsign a with Eq => NaN | Gt => PInf | Lt => NInf end
      | _ => Fin (Qred (a / b))
      end
  | Fin _, PInf | Fin _, NInf => Fin 0
  | PInf, Fin b => match qsign b with Lt => NInf | _ => PInf end
  | NInf, Fin b => match qsign b with Lt => PInf | _ => NInf end
  | PInf, PInf | PInf, NInf | NInf, PInf | NInf, NInf => NaN
  end.

(** [x ** 2] *)
Definition fsquare (x : float) : float := fmul x x.

(** Order on non-null cells, used by [min] and [max]. *)
Definition fleb (x y : float) : bool :=
  match x, y with
  | NaN, _ | _, NaN => false
  | NInf, _ => true
  | _, PInf => true
  | Fin a, Fin b => Qle_bool a b
  | _, _ => false
  end.

(** Equality of cells up to the representation of the rational. *)
Definition feq (x y : float) : Prop :=
  match x, y with
  | Fin a, Fin b => a == b
  | PInf, PInf | NInf, NInf | NaN, NaN => True
  | _, _ => False
  end.

End Float.

Export Float.

(** ** Long-format tables *)

Module Frame.

Record row : Type := mkRow {
  country_name : string;
  country_code : string;
  indicator_code : string;
  indicator_name : string;
  year : Z;
  value : float
}.

Definition DataFrame : Type := list row.

(** The subset [['indicator_name', 'year']] of a row. *)
Definition key : Type := (string * Z)%type.

Definition key_of (r : row) : key := (indicator_name r, year r).

Definition key_eqb (k1 k2 : key) : bool :=
  String.eqb (fst k1) (fst k2) && Z.eqb (snd k1) (snd k2).

(** [df.dropna(subset=['value'])] *)
Definition dropna (df : DataFrame) : DataFrame :=
  filter (fun r => notna (value r)) df.

(** [df.drop_duplicates(subset=['indicator_name', 'year'])]: a row is kept
    when its key has not been seen in an earlier row (keep='first'). *)
Fixpoint drop_duplicates_from (seen : list key) (df : DataFrame) : DataFrame :=
  match df with
  | [] => []
  | r :: rest =>
      if existsb (key_eqb (key_of r)) seen
      then drop_duplicates_from seen rest
      else r :: drop_duplicates_from (key_of r :: seen) rest
  end.

Definition drop_duplicates (df : DataFrame) : DataFrame :=
  drop_duplicates_from [] df.

(** [df.duplicated(subset=['indicator_name', 'year']).sum()] *)
Definition duplicated_count (df : DataFrame) : nat :=
  (List.length df - List.length (drop_duplicates df))%nat.

(** Stable sort by a total preorder given as a boolean test: an element is
    inserted in front of the first element it is not greater than, so equal
    elements keep their relative order. *)
Section Sort.
Context {A : Type} (le : A -> A -> bool).

Fixpoint insert_sorted (x : A) (l : list A) : list A :=
  match l with
  | [] => [x]
  | y :: rest => if le x y then x :: l else y :: insert_sorted x rest
  end.

Fixpoint sort_by (l : list A) : list A :=
  match l with
  | [] => []
  | x :: rest => insert_sorted x (sort_by rest)
  end.

End Sort.

(** Order of [sort_values(['indicator_name', 'year'])]. *)
Definition name_year_le (r1 r2 : row) : bool :=
  match String.compare (indicator_name r1) (indicator_name r2) with
  | Lt => true
  | Eq => year r1 <=? year r2
  | Gt => false
  end.

(** Order of [sort_values('year')].  Rows of the same year, which numpy's
    default sort may leave in either order, are kept in their order here;
    a series with one row per year has none. *)
Definition year_le (r1 r2 : row) : bool := year r1 <=? year r2.

(** [str.strip()]: whitespace is removed at both ends.  The whitespace
    characters of the ASCII range are tab to carriage return, the four
    separators 28 to 31, and the space. *)
Definition is_space (c : ascii) : bool :=
  let n := nat_of_ascii c in
  ((9 <=? n) && (n <=? 13) || (28 <=? n) && (n <=? 32))%nat.

Fixpoint lstrip (s : string) : string :=
  match s with
  | EmptyString => EmptyString
  | String c rest => if is_space c then lstrip rest else s
  end.

Fixpoint rstrip (s : string) : string :=
  match s with
  | EmptyString => EmptyString
  | String c rest =>
      match rstrip rest with
      | EmptyString => if is_space c then EmptyString else String c EmptyString
      | kept => String c kept
      end
  end.

Definition strip (s : string) : string := rstrip (lstrip s).

(** [df[df['indicator_name'] == indicator]] *)
Definition select_indicator (indicator : string) (df : DataFrame) : DataFrame :=
  filter (fun r => String.eqb (indicator_name r) indicator) df.

(** [Series.unique()]: the distinct values in order of first appearance. *)
Section Unique.
Context {A : Type} (eqb : A -> A -> bool).

Fixpoint unique_from (seen : list A) (l : list A) : list A :=
  match l with
  | [] => []
  | s :: rest =>
      if existsb (eqb s) seen
      then unique_from seen rest
      else s :: unique_from (s :: seen) rest
  end.

Definition unique (l : list A) : list A := unique_from [] l.

End Unique.

Definition indicator_names (df : DataFrame) : list string :=
  unique String.eqb (map indicator_name df).

(** ASCII [str.upper()]. *)
Definition upper_ascii (c : ascii) : ascii :=
  let n := nat_of_ascii c in
  if ((97 <=? n) && (n <=? 122))%nat then ascii_of_nat (n - 32) else c.

Fixpoint upper (s : string) : string :=
  match s with
  | EmptyString => EmptyString
  | String c rest => String (upper_ascii c) (upper rest)
  end.

(** *** Wide format

    [df.pivot(index='year', columns='indicator_name', values='value')]:
    one line per year in increasing order, one column per indicator in
    increasing order, and NaN in the cells no row of [df] fills. *)
Record WideTable : Type := mkWide {
  wide_columns : list string;
  wide_rows : list (Z * list float)
}.

Definition string_le (a b : string) : bool := String.leb a b.

Definition cell (df : DataFrame) (column : string) (y : Z) : float :=
  match find (fun r => key_eqb (key_of r) (column, y)) df with
  | Some r => value r
  | None => NaN
  end.

Definition has_duplicates (df : DataFrame) : bool :=
  negb (List.length (drop_duplicates df) =? List.length df)%nat.

Definition reshape (df : DataFrame) : WideTable :=
  let columns := sort_by string_le (indicator_names df) in
  let index := sort_by Z.leb (unique Z.eqb (map year df)) in
  mkWide columns
    (map (fun y => (y, map (fun c => cell df c y) columns)) index).

(** A column of the wide table, as the list of (year, cell) pairs that
    [Series.items()] goes through; [None] when the column does not exist. *)
Fixpoint position (c : string) (columns : list string) : option nat :=
  match columns with
  | [] => None
  | c' :: rest =>
      if String.eqb c' c then Some O
      else option_map S (position c rest)
  end.

Definition wide_column (w : WideTable) (c : string) : option (list (Z * float)) :=
  match position c (wide_columns w) with
  | None => None
  | Some i => Some (map (fun line => (fst line, nth i (snd line) NaN)) (wide_rows w))
  end.

End Frame.

Export Frame.

(** ** The transform stage: [BangladeshDataTransformer] *)

Module Transformer.

(** The two [ValueError]s the stage can raise. *)
Inductive exn : Type :=
| MissingRequiredColumns (missing_cols : list string)
| DuplicateEntries.

Inductive result (A : Type) : Type :=
| Ok (a : A)
| Raise (e : exn).

Arguments Ok {A} a.
Arguments Raise {A} e.

(** The raw table as [pd.read_csv] returns it: the header and the rows.
    The fields of a row that belong to a column missing from the header
    are never read. *)
Record RawTable : Type := mkTable {
  columns : list string;
  records : DataFrame
}.

Definition has_column (t : RawTable) (col : string) : bool :=
  existsb (String.eqb col) (columns t).

(** [DataFrame.pivot] refuses an index with duplicate entries. *)
Definition pivot (df : DataFrame) : result WideTable :=
  if has_duplicates df then Raise DuplicateEntries else Ok (reshape df).

(** *** Validate *)

Definition required_cols : list string :=
  ["country_name"; "indicator_name"; "year"; "value"].

(** What the quality report prints. *)
Inductive finding : Type :=
| QualityReport (total_records null_values : nat) (null_percentage : float)
    (unique_indicators year_coverage : nat)
| DuplicatesFound (duplicates : nat)
| NoDuplicatesFound
| UnusualYearRange
| YearRangeValid.

Definition of_nat (n : nat) : float := of_Z (Z.of_nat n).

(** [Series.min()] and [Series.max()] of the year column; an empty column
    has neither, and pandas answers NaN, which compares false with
    everything. *)
Definition year_min (df : DataFrame) : option Z :=
  match map year df with
  | [] => None
  | y :: rest => Some (fold_left Z.min rest y)
  end.

Definition year_max (df : DataFrame) : option Z :=
  match map year df with
  | [] => None
  | y :: rest => Some (fold_left Z.max rest y)
  end.

(** [df['year'].min() < 1990 or df['year'].max() > 2030] *)
Definition unusual_year_range (df : DataFrame) : bool :=
  match year_min df, year_max df with
  | Some lo, Some hi => (lo <? 1990) || (2030 <? hi)
  | _, _ => false
  end.

Definition validate_raw_data (t : RawTable) : result (list finding) :=
  let missing_cols := filter (fun col => negb (has_column t col)) required_cols in
  match missing_cols with
  | _ :: _ => Raise (MissingRequiredColumns missing_cols)
  | [] =>
      let df := records t in
      let total_records := List.length df in
      let null_values := List.length (filter (fun r => isna (value r)) df) in
      let null_percentage :=
        fmul (fdiv (of_nat null_values) (of_nat total_records)) (of_Z 100) in
      let duplicates := duplicated_count df in
      let out_of_range := unusual_year_range df in
      Ok [ QualityReport total_records null_values null_percentage
             (List.length (indicator_names df))
             (List.length (unique Z.eqb (map year df)));
           (if (0 <? duplicates)%nat then DuplicatesFound duplicates
            else NoDuplicatesFound);
           (if out_of_range then UnusualYearRange else YearRangeValid) ]
  end.

(** *** Clean *)

Definition standardize (r : row) : row :=
  mkRow (strip (country_name r)) "BGD" (indicator_code r)
        (strip (indicator_name r)) (year r) (value r).

Definition clean_data (df : DataFrame) : DataFrame :=
  let df_clean := dropna df in
  let df_clean := drop_duplicates df_clean in
  let df_clean := map standardize df_clean in
  sort_by name_year_le df_clean.

(** *** Feature derivation *)

Definition growth_indicators : list string :=
  ["gdp_per_capita"; "population"; "gdp_growth"].

(** [Series.pct_change()]: the values are forward filled, then each is
    divided by its predecessor, minus one; the first has no predecessor. *)
Fixpoint ffill_from (last : float) (l : list float) : list float :=
  match l with
  | [] => []
  | x :: rest =>
      let x' := if isna x then last else x in
      x' :: ffill_from x' rest
  end.

Fixpoint pct_change_from (prev : float) (l : list float) : list float :=
  match l with
  | [] => []
  | x :: rest => fsub (fdiv x prev) (of_Z 1) :: pct_change_from x rest
  end.

Definition pct_change (l : list float) : list float :=
  pct_change_from NaN (ffill_from NaN l).

(** [Series.diff()] *)
Fixpoint diff_from (prev : float) (l : list float) : list float :=
  match l with
  | [] => []
  | x :: rest => fsub x prev :: diff_from x rest
  end.

Definition diff (l : list float) : list float := diff_from NaN l.

Definition yoy_name (indicator : string) : string :=
  append indicator "_yoy_growth_pct".

Definition yoy_row (indicator : string) (r : row) (yoy_change : float) : row :=
  mkRow (country_name r) (country_code r)
        (append "CALC_" (append (upper indicator) "_YOY"))
        (yoy_name indicator) (year r) yoy_change.

(** The rows appended while iterating over [indicator_data]: one for each
    line whose percent change is not null. *)
Definition yoy_rows (indicator : string) (lines : list (row * float)) : DataFrame :=
  flat_map (fun line =>
              if isna (snd line) then []
              else [yoy_row indicator (fst line) (snd line)]) lines.

(** One turn of the loop over [growth_indicators]. *)
Definition add_growth (df_features : DataFrame) (indicator : string) : DataFrame :=
  let indicator_data := select_indicator indicator df_features in
  if (1 <? List.length indicator_data)%nat then
    let indicator_data := sort_by year_le indicator_data in
    let yoy_change :=
      map (fun c => fmul c (of_Z 100)) (pct_change (map value indicator_data)) in
    let yoy_abs_change := diff (map value indicator_data) in
    df_features ++ yoy_rows indicator (combine indicator_data yoy_change)
  else df_features.

Definition add_growth_rates (df_clean : DataFrame) : DataFrame :=
  fold_left add_growth growth_indicators df_clean.

(** The diversification index of one year, from the two shares read in the
    wide table: services are estimated as the remainder to 100. *)
Definition diversification (agriculture industry : float) : float :=
  let services := fsub (fsub (of_Z 100) agriculture) industry in
  fsub (of_Z 1)
       (fadd (fadd (fsquare (fdiv agriculture (of_Z 100)))
                   (fsquare (fdiv industry (of_Z 100))))
             (fsquare (fdiv services (of_Z 100)))).

Definition diversification_row (y : Z) (div_idx : float) : row :=
  mkRow "Bangladesh" "BGD" "CALC_ECON_DIV_IDX"
        "economic_diversification_index" y div_idx.

(** [diversification_idx.items()], or nothing when one of the two columns
    is not in the wide table. *)
Definition diversification_idx (df_pivot : WideTable) : list (Z * float) :=
  match wide_column df_pivot "agriculture_pct_gdp",
        wide_column df_pivot "industry_pct_gdp" with
  | Some agriculture, Some industry =>
      map (fun line => (fst (fst line),
                        diversification (snd (fst line)) (snd (snd line))))
          (combine agriculture industry)
  | _, _ => []
  end.

Definition diversification_rows (df_pivot : WideTable) : DataFrame :=
  flat_map (fun item =>
              if isna (snd item) then []
              else [diversification_row (fst item) (snd item)])
           (diversification_idx df_pivot).

Definition create_features (df_clean : DataFrame) : result DataFrame :=
  let df_features := add_growth_rates df_clean in
  match pivot df_features with
  | Raise e => Raise e
  | Ok df_pivot => Ok (df_features ++ diversification_rows df_pivot)
  end.

(** *** Time-series analysis *)

(** [rolling(window=3, center=True).mean()]: the mean of a value and its
    two neighbours; null at both ends.  It is computed and not used. *)
Definition mean3 (a b c : float) : float :=
  fdiv (fadd (fadd a b) c) (of_Z 3).

Fixpoint moving_avg_from (prev : float) (l : list float) : list float :=
  match l with
  | [] => []
  | cur :: rest =>
      match rest with
      | [] => [NaN]
      | next :: _ => mean3 prev cur next :: moving_avg_from cur rest
      end
  end.

Definition moving_avg_3yr (l : list float) : list float :=
  match l with
  | [] => []
  | first :: rest =>
      match rest with
      | [] => [NaN]
      | _ :: _ => NaN :: moving_avg_from first rest
      end
  end.

(** The finite values of a column, when all of them are. *)
Fixpoint finite_values (l : list float) : option (list Q) :=
  match l with
  | [] => Some []
  | Fin q :: rest => option_map (cons q) (finite_values rest)
  | _ :: _ => None
  end.

Definition Qsum (l : list Q) : Q := fold_right Qplus 0%Q l.

(** Slope of the least-squares line through the points [(x, y)]:
    [(n Sxy - Sx Sy) / (n Sxx - Sx Sx)]. *)
Definition slope_numerator (xs ys : list Q) : Q :=
  let n := inject_Z (Z.of_nat (List.length xs)) in
  (n * Qsum (map (fun p => fst p * snd p) (combine xs ys))
   - Qsum xs * Qsum ys)%Q.

Definition slope_denominator (xs : list Q) : Q :=
  let n := inject_Z (Z.of_nat (List.length xs)) in
  (n * Qsum (map (fun x => x * x) xs) - Qsum xs * Qsum xs)%Q.

Definition ols_slope (xs ys : list Q) : Q :=
  (slope_numerator xs ys / slope_denominator xs)%Q.

(** [np.polyfit(years, values, 1)[0]].  numpy solves the least-squares
    system in floating point; on finite values over at least two distinct
    years the answer is the slope above.  An infinite value makes every
    coefficient NaN, as the arithmetic of infinities does ([inf - inf]).
    When all the years coincide the system is rank deficient; numpy then
    answers with a minimum-norm solution, which is not modelled: the case
    is given NaN here and every statement below that reads a slope is
    about a series with two distinct years. *)
Definition polyfit_slope (years : list Z) (values : list float) : float :=
  match finite_values values with
  | None => NaN
  | Some ys =>
      let xs := map inject_Z years in
      if Qeq_bool (slope_denominator xs) 0 then NaN
      else Fin (Qred (ols_slope xs ys))
  end.

Definition trend_name (indicator : string) : string :=
  append indicator "_trend_coefficient".

Definition trend_row (indicator : string) (latest : Z) (trend_coef : float) : row :=
  mkRow "Bangladesh" "BGD" (append "TREND_" (upper indicator))
        (trend_name indicator) latest trend_coef.

(** One turn of the loop over the indicator names: the series is read in
    the table as it stands, trend rows of earlier turns included. *)
Definition add_trend (df_ts : DataFrame) (indicator : string) : DataFrame :=
  let indicator_data := select_indicator indicator df_ts in
  if (5 <=? List.length indicator_data)%nat then
    let indicator_data := sort_by year_le indicator_data in
    let moving_avg := moving_avg_3yr (map value indicator_data) in
    let years := map year indicator_data in
    let values := map value indicator_data in
    if (1 <? List.length years)%nat && negb (existsb isna values) then
      df_ts ++ [trend_row indicator (last years 0) (polyfit_slope years values)]
    else df_ts
  else df_ts.

(** The names the loop goes through are those of the table at entry. *)
Definition create_time_series_analysis (df_features : DataFrame) : DataFrame :=
  fold_left add_trend (indicator_names df_features) df_features.

(** *** Summary statistics *)

(** One line of the summary table.  [std_value], the square root of the
    sample variance, is irrational in general and is left out. *)
Record summary : Type := mkSummary {
  indicator : string;
  count : nat;
  min_year : Z;
  max_year : Z;
  mean_value : float;
  min_value : float;
  max_value : float;
  null_count : nat
}.

Definition fsum (l : list float) : float := fold_left fadd l (of_Z 0).

(** pandas reductions skip the null cells. *)
Definition skipna (l : list float) : list float := filter notna l.

Definition mean (l : list float) : float :=
  let present := skipna l in
  fdiv (fsum present) (of_nat (List.length present)).

Definition fmin (x y : float) : float := if fleb x y then x else y.
Definition fmax (x y : float) : float := if fleb x y then y else x.

Definition reduce (op : float -> float -> float) (l : list float) : float :=
  match skipna l with
  | [] => NaN
  | x :: rest => fold_left op rest x
  end.

(** [round(3)]: to the nearest multiple of one thousandth, ties to even. *)
Definition round_half_even (q : Q) : Z :=
  let lo := Qfloor q in
  match Qcompare (q - inject_Z lo) (1 # 2) with
  | Lt => lo
  | Gt => lo + 1
  | Eq => if Z.even lo then lo else lo + 1
  end.

Definition round3 (x : float) : float :=
  match x with
  | Fin q => Fin (Qred (inject_Z (round_half_even (q * 1000)) / 1000))
  | _ => x
  end.

Definition summarize (processed_df : DataFrame) (name : string) : summary :=
  let indicator_data := select_indicator name processed_df in
  let years := map year indicator_data in
  let values := map value indicator_data in
  mkSummary name
    (List.length indicator_data)
    (fold_left Z.min years (hd 0 years))
    (fold_left Z.max years (hd 0 years))
    (round3 (mean values))
    (round3 (reduce fmin values))
    (round3 (reduce fmax values))
    (List.length (filter isna values)).

Definition generate_summary_statistics (processed_df : DataFrame) : list summary :=
  map (summarize processed_df) (indicator_names processed_df).

(** *** Files and the run *)

(** The four artifacts of the stage, each present or absent. *)
Record filesystem : Type := mkFs {
  raw_artifact : option RawTable;
  main_dataset : option DataFrame;
  wide_format : option WideTable;
  summary_stats : option (list summary)
}.

(** What the stage prints: the banner of each phase, the outcome of the
    load and the findings of the validation.  The record counts printed in
    between are not kept. *)
Inductive event : Type :=
| PipelineStart
| LoadingRawData
| Loaded (n : nat)
| FileNotFound
| ErrorLoadingData
| ValidatingRawData
| Report (f : finding)
| CleaningData
| CreatingFeatures
| CreatingTimeSeries
| SavingProcessedData
| SavedMainDataset
| SavedWideFormat
| GeneratingSummary
| SavedSummaryStats
| TransformationComplete.

(** Computations on the files that print and may raise. *)
Definition M (A : Type) : Type :=
  filesystem -> filesystem * list event * result A.

Definition ret {A : Type} (a : A) : M A := fun fs => (fs, [], Ok a).

Definition bind {A B : Type} (m : M A) (k : A -> M B) : M B :=
  fun fs =>
    match m fs with
    | (fs1, log1, Ok a) =>
        match k a fs1 with
        | (fs2, log2, r) => (fs2, log1 ++ log2, r)
        end
    | (fs1, log1, Raise e) => (fs1, log1, Raise e)
    end.

Definition print (e : event) : M unit := fun fs => (fs, [e], Ok tt).

Definition print_all (es : list event) : M unit := fun fs => (fs, es, Ok tt).

Definition lift {A : Type} (r : result A) : M A := fun fs => (fs, [], r).

Definition read_raw : M (option RawTable) :=
  fun fs => (fs, [], Ok (raw_artifact fs)).

Definition write_main (df : DataFrame) : M unit :=
  fun fs => (mkFs (raw_artifact fs) (Some df) (wide_format fs) (summary_stats fs),
             [], Ok tt).

Definition write_wide (w : WideTable) : M unit :=
  fun fs => (mkFs (raw_artifact fs) (main_dataset fs) (Some w) (summary_stats fs),
             [], Ok tt).

Definition write_summary (s : list summary) : M unit :=
  fun fs => (mkFs (raw_artifact fs) (main_dataset fs) (wide_format fs) (Some s),
             [], Ok tt).

Notation "x <- m ;; k" := (bind m (fun x => k))
  (at level 61, m at next level, right associativity).
Notation "m ;; k" := (bind m (fun _ => k))
  (at level 61, right associativity).

(** [load_raw_data] answers [True] with the table in [self.df], or [False]:
    when the file is absent ([FileNotFoundError]) and when anything else
    goes wrong, such as a table without a [year] column to print the range
    of. *)
Definition load_raw_data : M (option RawTable) :=
  print LoadingRawData ;;
  file <- read_raw ;;
  match file with
  | None => print FileNotFound ;; ret None
  | Some t =>
      print (Loaded (List.length (records t))) ;;
      if has_column t "year" then ret (Some t)
      else print ErrorLoadingData ;; ret None
  end.

Definition save_processed_data (processed_df : DataFrame) : M unit :=
  print SavingProcessedData ;;
  write_main processed_df ;;
  print SavedMainDataset ;;
  pivot_df <- lift (pivot processed_df) ;;
  write_wide pivot_df ;;
  print SavedWideFormat ;;
  print GeneratingSummary ;;
  write_summary (generate_summary_statistics processed_df) ;;
  print SavedSummaryStats.

Definition run_transformation : M bool :=
  print PipelineStart ;;
  loaded <- load_raw_data ;;
  match loaded with
  | None => ret false
  | Some t =>
      print ValidatingRawData ;;
      findings <- lift (validate_raw_data t) ;;
      print_all (map Report findings) ;;
      print CleaningData ;;
      let df_clean := clean_data (records t) in
      print CreatingFeatures ;;
      df_features <- lift (create_features df_clean) ;;
      print CreatingTimeSeries ;;
      let processed_df := create_time_series_analysis df_features in
      save_processed_data processed_df ;;
      print TransformationComplete ;;
      ret true
  end.

End Transformer.

Export Transformer.

(** ** The warehouse: [LocalDataWarehouse], fact table *)

Module Warehouse.

(** A line of [economic_indicators]: the generated [id] and the six
    columns the load fills.  [created_at] takes the time of the insert and
    is not modelled. *)
Record fact : Type := mkFact {
  id : Z;
  observation : row
}.

(** The database file: the fact table when it exists, and the counter
    SQLite keeps for its [AUTOINCREMENT] key, which outlives deletions. *)
Record warehouse : Type := mkWarehouse {
  economic_indicators : option (list fact);
  sqlite_sequence : Z
}.

(** [CREATE TABLE IF NOT EXISTS economic_indicators (...)] *)
Definition create_warehouse_tables (w : warehouse) : bool * warehouse :=
  match economic_indicators w with
  | Some _ => (true, w)
  | None => (true, mkWarehouse (Some []) (sqlite_sequence w))
  end.

(** [INSERT OR REPLACE]: the lines that would break
    [UNIQUE(indicator_name, year)] are deleted, then the new line is added
    under the next key. *)
Definition same_key (r : row) (f : fact) : bool :=
  key_eqb (key_of (observation f)) (key_of r).

Definition insert_or_replace (state : list fact * Z) (r : row) : list fact * Z :=
  let table := fst state in
  let next := snd state + 1 in
  (filter (fun f => negb (same_key r f)) table ++ [mkFact next r], next).

(** The fact-table part of [load_processed_data]: [False] when the
    processed file is absent or a statement fails (here: no such table);
    otherwise every line is deleted and the rows of the file are inserted
    in order. *)
Definition load_processed_data (main_file : option DataFrame) (w : warehouse)
  : bool * warehouse :=
  match main_file with
  | None => (false, w)
  | Some df_main =>
      match economic_indicators w with
      | None => (false, w)
      | Some _ =>
          let loaded := fold_left insert_or_replace df_main ([], sqlite_sequence w) in
          (true, mkWarehouse (Some (fst loaded)) (snd loaded))
      end
  end.


End Warehouse.

Export Warehouse.

(** ** Reading the wide table back *)

Module Melt.

Definition triple : Type := (Z * string * float)%type.


Definition present (t : triple) : bool := notna (snd t).



End Melt.

Export Melt.

(** ** Sample tables *)

Module Samples.

Definition obs (name : string) (y : Z) (v : float) : row :=
  mkRow "Bangladesh" "BGD" "WB" name y v.


(** [gdp_per_capita] at 100, 110, 121 over 2000 to 2002. *)
Definition gdp_three_years : DataFrame :=
  [ obs "gdp_per_capita" 2000 (of_Z 100);
    obs "gdp_per_capita" 2001 (of_Z 110);
    obs "gdp_per_capita" 2002 (of_Z 121) ].

Definition all_columns : list string :=
  ["country_name"; "country_code"; "indicator_code"; "indicator_name";
   "year"; "value"].

Definition three_years_fs : filesystem :=
  mkFs (Some (mkTable all_columns gdp_three_years)) None None None.





Definition absent_input : filesystem := mkFs None None None None.



(** Five years of [unemployment_rate], and an indicator that bears the
    name of its trend coefficient at the latest of them. *)
Definition trend_key_taken : DataFrame :=
  [ obs "unemployment_rate" 2006 (of_Z 1);
    obs "unemployment_rate" 2007 (of_Z 2);
    obs "unemployment_rate" 2008 (of_Z 3);
    obs "unemployment_rate" 2009 (of_Z 4);
    obs "unemployment_rate" 2010 (of_Z 5);
    obs "unemployment_rate_trend_coefficient" 2010 (of_Z 0) ].

Definition trend_key_taken_fs : filesystem :=
  mkFs (Some (mkTable all_columns trend_key_taken)) None None None.

(** A processed table left by an earlier run, and no raw file. *)
Definition earlier_run_fs : filesystem :=
  mkFs None (Some gdp_three_years) None None.

(** A null first occurrence, and the same indicator written with and
    without a leading space. *)
Definition padded_duplicate : DataFrame :=
  [ obs "gdp_growth" 2000 NaN;
    obs "gdp_growth" 2000 (of_Z 5);
    obs " gdp_growth" 2000 (of_Z 7) ].

End Samples.

(** ** Vocabulary of the statements *)

Module Notions.

(** [r] occurs in [df] with no row of the same key in front of it. *)
Definition first_occurrence (r : row) (df : DataFrame) : Prop :=
  exists before after,
    df = before ++ r :: after /\
    forall x, In x before -> key_of x <> key_of r.

(** No cell of the [value] column is null. *)
Definition no_nulls (df : DataFrame) : Prop :=
  Forall (fun r => isna (value r) = false) df.

(** At most one row for each (indicator_name, year). *)
Definition unique_keys (df : DataFrame) : Prop :=
  NoDup (map key_of df).


(** The rows a phase appended to the table it started from. *)
Definition new_rows (before after : DataFrame) : DataFrame :=
  skipn (List.length before) after.

(** The lines of [indicator_data] with their [yoy_change] cell, [last]
    being the latest value seen that is not null. *)
Fixpoint growth_lines (last : float) (l : list row) : list (row * float) :=
  match l with
  | [] => []
  | r :: rest =>
      let x := if isna (value r) then last else value r in
      (r, fmul (fsub (fdiv x last) (of_Z 1)) (of_Z 100)) :: growth_lines x rest
  end.

(** The rows one turn of the growth loop appends, from the rows of the
    indicator. *)
Definition growth_of (indicator : string) (indicator_data : DataFrame) : DataFrame :=
  if (1 <? List.length indicator_data)%nat
  then yoy_rows indicator (growth_lines NaN (sort_by year_le indicator_data))
  else [].



(** The row one turn of the trend loop appends, from the rows of the
    indicator. *)
Definition trend_of (indicator : string) (indicator_data : DataFrame) : DataFrame :=
  if (5 <=? List.length indicator_data)%nat then
    let sorted := sort_by year_le indicator_data in
    if (1 <? List.length (map year sorted))%nat
       && negb (existsb isna (map value sorted))
    then [trend_row indicator (last (map year sorted) 0)
                    (polyfit_slope (map year sorted) (map value sorted))]
    else []
  else [].




(** The keys of the lines of the fact table. *)
Definition fact_keys (table : list fact) : list key :=
  map (fun f => key_of (observation f)) table.

(** Every cell of the [value] column is a number. *)
Definition all_finite (df : DataFrame) : Prop :=
  Forall (fun r => is_finite (value r) = true) df.

(** The table has every required column. *)
Definition has_required_columns (t : RawTable) : Prop :=
  forall col, In col required_cols -> has_column t col = true.

(** What the run has printed when it reaches the Clean phase. *)
Definition log_until_clean (t : RawTable) (findings : list finding) : list event :=
  [PipelineStart; LoadingRawData; Loaded (List.length (records t));
   ValidatingRawData] ++ map Report findings ++ [CleaningData; CreatingFeatures].

(** The index of the pivot: the years of the table, increasing. *)
Definition wide_index_of (df : DataFrame) : list Z :=
  sort_by Z.leb (unique Z.eqb (map year df)).




End Notions.

Export Notions.

(** ** Further vocabulary *)

Module Orders.

(** [r1] comes no later than [r2] in the order of
    [sort_values(['indicator_name', 'year'])]. *)
Definition name_year_order (r1 r2 : row) : Prop :=
  String.compare (indicator_name r1) (indicator_name r2) = Lt \/
  (indicator_name r1 = indicator_name r2 /\ year r1 <= year r2).



(** Sum of a list of counts. *)
Definition total (counts : list nat) : nat := fold_right Nat.add 0%nat counts.




(** The growth rows feature derivation appends to a cleaned table. *)
Definition growth_rows (df_clean : DataFrame) : DataFrame :=
  flat_map (fun ind => growth_of ind (select_indicator ind df_clean))
           growth_indicators.

(** A year outside the bounds of the validation. *)
Definition unusual_year (y : Z) : Prop := y < 1990 \/ 2030 < y.

End Orders.

Export Orders.

(** ** The latest-indicators view *)

Module Views.

(** The rows of a file that the load leaves in the fact table: of the rows
    sharing a key, the last one, in the order of the file. *)
Definition keep_last (df : DataFrame) : DataFrame :=
  rev (drop_duplicates (rev df)).

(** A [REAL] cell: SQLite stores a NaN as NULL. *)
Definition sql_value (x : float) : option float :=
  if isna x then None else Some x.

(** SQL subtraction: NULL when an operand is NULL. *)
Definition sql_sub (a b : option float) : option float :=
  match a, b with
  | Some x, Some y => Some (fsub x y)
  | _, _ => None
  end.

(** [SELECT MAX(year) FROM economic_indicators]: NULL on an empty table. *)
Definition latest_year (table : list fact) : option Z :=
  match map (fun f => year (observation f)) table with
  | [] => None
  | y :: rest => Some (fold_left Z.max rest y)
  end.

Definition fact_year_le (f1 f2 : fact) : bool :=
  year (observation f1) <=? year (observation f2).

(** [LAG(value)]: the value of the line in front of the current one in its
    partition, NULL when the current line is the first. *)
Fixpoint lag_value (partition : list fact) (current : fact)
         (previous : option float) : option float :=
  match partition with
  | [] => None
  | f :: rest =>
      if id f =? id current then previous
      else lag_value rest current (sql_value (value (observation f)))
  end.

Record latest_line : Type := mkLatest {
  latest_indicator_name : string;
  latest_line_year : Z;
  latest_value : option float;
  previous_year_value : option float;
  year_over_year_change : option float
}.

(** [v_latest_indicators].  The [WHERE] clause selects the lines of the
    latest year; the window function then runs over the selected lines,
    partitioned by indicator and ordered by year. *)
Definition v_latest_indicators (table : list fact) : list latest_line :=
  match latest_year table with
  | None => []
  | Some latest =>
      let selected := filter (fun f => year (observation f) =? latest) table in
      map (fun f =>
             let partition :=
               sort_by fact_year_le
                 (filter (fun g => String.eqb (indicator_name (observation g))
                                              (indicator_name (observation f)))
                         selected) in
             let lag := lag_value partition f None in
             mkLatest (indicator_name (observation f)) (year (observation f))
                      (sql_value (value (observation f)))
                      lag
                      (sql_sub (sql_value (value (observation f))) lag))
          selected
  end.

End Views.

Export Views.

(** ** The ingest script: [ingest_data.py] *)

Module Ingest.

(** The catalog: World Bank code and name of each indicator, in the order
    of the dictionary. *)
Definition indicators : list (string * string) :=
  [ ("NY.GDP.PCAP.KD", "gdp_per_capita");
    ("SP.POP.TOTL", "population");
    ("NY.GDP.MKTP.KD.ZG", "gdp_growth");
    ("SL.UEM.TOTL.ZS", "unemployment_rate");
    ("NV.AGR.TOTL.ZS", "agriculture_pct_gdp");
    ("NV.IND.TOTL.ZS", "industry_pct_gdp") ].

(** The [country] field of a record of the API: absent, null, or an
    object whose [value] and [id] are each present or absent. *)
Inductive api_country : Type :=
| CountryAbsent
| CountryNull
| Country (name : option string) (iso : option string).

(** The [date] field as [int] reads it: absent, null or empty; a text
    that reads as an integer; any other text, on which [int] raises. *)
Inductive api_date : Type :=
| DateAbsent
| DateInt (y : Z)
| DateOther.

Record api_record : Type := mkApi {
  api_country_field : api_country;
  api_date_field : api_date;
  api_value : option float
}.

(** An entry of [all_records]: the year may be [None]. *)
Record pending : Type := mkPending {
  pending_country_name : string;
  pending_country_code : string;
  pending_indicator_code : string;
  pending_indicator_name : string;
  pending_year : option Z;
  pending_value : float
}.

(** A value, or an exception nothing catches. *)
Inductive attempt (A : Type) : Type :=
| Done (a : A)
| Uncaught.

Arguments Done {A} a.
Arguments Uncaught {A}.

(** The body of the loop over the records of one indicator: a record
    without value is skipped; a null [country] and a date [int] cannot read
    raise. *)
Definition collect_record (indicator_code indicator_name : string)
           (record : api_record) : attempt (list pending) :=
  match api_value record with
  | None => Done []
  | Some v =>
      match api_country_field record with
      | CountryNull => Uncaught
      | country =>
          let country_name :=
            match country with Country (Some n) _ => n | _ => "Bangladesh" end in
          let country_code :=
            match country with Country _ (Some i) => i | _ => "BGD" end in
          match api_date_field record with
          | DateOther => Uncaught
          | DateAbsent =>
              Done [mkPending country_name country_code indicator_code
                              indicator_name None v]
          | DateInt y =>
              Done [mkPending country_name country_code indicator_code
                              indicator_name (Some y) v]
          end
      end
  end.

Fixpoint collect_records (indicator_code indicator_name : string)
         (data : list api_record) : attempt (list pending) :=
  match data with
  | [] => Done []
  | record :: rest =>
      match collect_record indicator_code indicator_name record with
      | Uncaught => Uncaught
      | Done first =>
          match collect_records indicator_code indicator_name rest with
          | Uncaught => Uncaught
          | Done others => Done (first ++ others)
          end
      end
  end.

(** The loop over the catalog.  [fetch] stands for [fetch_wb_indicator]:
    the records the API returned for a code, or [None]. *)
Fixpoint collect_all (fetch : string -> option (list api_record))
         (catalog : list (string * string)) : attempt (list pending) :=
  match catalog with
  | [] => Done []
  | (indicator_code, indicator_name) :: rest =>
      let collected :=
        match fetch indicator_code with
        | Some data => collect_records indicator_code indicator_name data
        | None => Done []
        end in
      match collected with
      | Uncaught => Uncaught
      | Done first =>
          match collect_all fetch rest with
          | Uncaught => Uncaught
          | Done others => Done (first ++ others)
          end
      end
  end.

(** [df.dropna(subset=['value', 'year'])] *)
Definition dropna_value_year (all_records : list pending) : DataFrame :=
  flat_map (fun p =>
              match pending_year p with
              | Some y =>
                  if notna (pending_value p)
                  then [mkRow (pending_country_name p) (pending_country_code p)
                              (pending_indicator_code p) (pending_indicator_name p)
                              y (pending_value p)]
                  else []
              | None => []
              end) all_records.

Definition csv_columns : list string :=
  ["country_name"; "country_code"; "indicator_code"; "indicator_name";
   "year"; "value"].

(** How [main] ends: the file saved with so many records, nothing
    fetched and nothing written, or an exception. *)
Inductive ingest_outcome : Type :=
| Saved (n : nat)
| NoDataFetched
| IngestRaised.

Definition ingest_main (fetch : string -> option (list api_record))
           (fs : filesystem) : filesystem * ingest_outcome :=
  match collect_all fetch indicators with
  | Uncaught => (fs, IngestRaised)
  | Done [] => (fs, NoDataFetched)
  | Done all_records =>
      let df := dropna_value_year all_records in
      let df := sort_by name_year_le df in
      (mkFs (Some (mkTable csv_columns df)) (main_dataset fs) (wide_format fs)
            (summary_stats fs),
       Saved (List.length df))
  end.

End Ingest.

Export Ingest.

(** ** The tasks of the flow: [pipeline_flow.py] *)

Module Flow.

(** The exit status of a script: 1 when an exception escapes, 0 when
    [main] returns, whatever it printed. *)
Definition ingest_script (fetch : string -> option (list api_record))
           (fs : filesystem) : filesystem * Z :=
  match ingest_main fetch fs with
  | (fs', IngestRaised) => (fs', 1)
  | (fs', _) => (fs', 0)
  end.

(** [main] of [transform_data.py] prints one message or the other after
    [run_transformation] and returns. *)
Definition transform_script (fs : filesystem) : filesystem * Z :=
  match run_transformation fs with
  | (fs', _, Raise _) => (fs', 1)
  | (fs', _, Ok _) => (fs', 0)
  end.

(** One attempt of a task: the count it returns, or the exception it
    raises again. *)
Inductive task_result : Type :=
| Returned (count : nat)
| TaskRaised (message : string).

Definition run_ingest (fetch : string -> option (list api_record))
           (fs : filesystem) : filesystem * task_result :=
  let (fs', returncode) := ingest_script fetch fs in
  if returncode =? 0 then
    match raw_artifact fs' with
    | Some df => (fs', Returned (List.length (records df)))
    | None => (fs', TaskRaised "Output file not created")
    end
  else (fs', TaskRaised "Ingestion script failed").

Definition run_transform (ingest_count : nat) (fs : filesystem)
  : filesystem * task_result :=
  let (fs', returncode) := transform_script fs in
  if returncode =? 0 then
    match main_dataset fs' with
    | Some df => (fs', Returned (List.length df))
    | None => (fs', TaskRaised "Processed file not created")
    end
  else (fs', TaskRaised "Transformation script failed").

End Flow.

Export Flow.

(** ** The load task, the quality check and the flow *)

Module Orchestration.

(** The processed files and the raw file, and the database file, present
    or absent. *)
Record store : Type := mkStore {
  files : filesystem;
  database : option warehouse
}.

(** [sqlite3.connect] creates the database file when there is none. *)
Definition connect_to_warehouse (db : option warehouse) : warehouse :=
  match db with
  | Some w => w
  | None => mkWarehouse None 0
  end.

(** [load_to_warehouse.py] run as a script.  [main] returns at once when
    one of the three processed files is missing.  Otherwise
    [run_warehouse_pipeline] connects, creates the tables and loads the
    long table, going on after a step that answers [False]; the views, the
    backup and the export that follow read the database and the processed
    files and write elsewhere.  Every step catches its exceptions, so the
    exit status is 0. *)
Definition warehouse_script (s : store) : store * Z :=
  match main_dataset (files s), wide_format (files s), summary_stats (files s) with
  | Some _, Some _, Some _ =>
      let connected := connect_to_warehouse (database s) in
      let created := snd (create_warehouse_tables connected) in
      let loaded := snd (load_processed_data (main_dataset (files s)) created) in
      (mkStore (files s) (Some loaded), 0)
  | _, _, _ => (s, 0)
  end.

(** One attempt of the load task: [SELECT COUNT( * ) FROM economic_indicators]
    on the database the script left. *)
Definition run_load (transform_count : nat) (s : store) : store * task_result :=
  let (s', returncode) := warehouse_script s in
  if returncode =? 0 then
    match database s' with
    | Some w =>
        match economic_indicators w with
        | Some table => (s', Returned (List.length table))
        | None => (s', TaskRaised "no such table: economic_indicators")
        end
    | None => (s', TaskRaised "Warehouse database not created")
    end
  else (s', TaskRaised "Loading script failed").






End Orchestration.

Export Orchestration.

(** ** Sample answers of the API *)

Module IngestSamples.

(** Three records for [gdp_per_capita], the last without value; nothing
    for the other codes. *)
Definition gdp_only (indicator_code : string) : option (list api_record) :=
  if String.eqb indicator_code "NY.GDP.PCAP.KD"
  then Some [ mkApi (Country (Some "Bangladesh") (Some "BD")) (DateInt 2001)
                    (Some (of_Z 110));
              mkApi CountryAbsent (DateInt 2000) (Some (of_Z 100));
              mkApi CountryAbsent (DateInt 2002) None ]
  else None.

(** The API answers nothing. *)
Definition nothing_fetched (indicator_code : string) : option (list api_record) :=
  None.

(** A raw file left by an earlier run. *)
Definition earlier_raw_fs : filesystem :=
  mkFs (Some (mkTable csv_columns [])) None None None.

(** A database left by an earlier run, and no processed file. *)
Definition earlier_database : store :=
  mkStore Samples.absent_input
          (Some (mkWarehouse
                   (Some [mkFact 1 (Samples.obs "population" 2000 (of_Z 1))]) 1)).


End IngestSamples.

(** * Properties *)

(** ** Facts about keys, sorting and deduplication *)

Module Facts.

Lemma key_eqb_eq (k1 k2 : key) : key_eqb k1 k2 = true <-> k1 = k2.
Proof.
  destruct k1 as [n1 y1], k2 as [n2 y2]; unfold key_eqb; simpl.
  rewrite andb_true_iff, String.eqb_eq, Z.eqb_eq.
  split; [intros [-> ->]; reflexivity | intros H; inversion H; auto].
Qed.

Lemma key_eqb_refl (k : key) : key_eqb k k = true.
Proof. apply key_eqb_eq; reflexivity. Qed.

Lemma key_eqb_neq (k1 k2 : key) : key_eqb k1 k2 = false <-> k1 <> k2.
Proof.
  rewrite <- key_eqb_eq. destruct (key_eqb k1 k2); split; congruence.
Qed.

Lemma existsb_key_In (k : key) (seen : list key) :
  existsb (key_eqb k) seen = true <-> In k seen.
Proof.
  rewrite existsb_exists. split.
  - intros [k' [Hin Heq]]. apply key_eqb_eq in Heq. subst; assumption.
  - intros Hin. exists k. split; [assumption | apply key_eqb_refl].
Qed.

Lemma existsb_key_not_In (k : key) (seen : list key) :
  existsb (key_eqb k) seen = false <-> ~ In k seen.
Proof.
  rewrite <- existsb_key_In. destruct (existsb (key_eqb k) seen); split; congruence.
Qed.

Section SortFacts.
Context {A : Type} (le : A -> A -> bool).

Lemma insert_sorted_perm (x : A) (l : list A) :
  Permutation (insert_sorted le x l) (x :: l).
Proof.
  induction l as [|y l IH]; simpl.
  - apply Permutation_refl.
  - destruct (le x y).
    + apply Permutation_refl.
    + apply perm_trans with (y :: x :: l).
      * apply perm_skip, IH.
      * apply perm_swap.
Qed.

Lemma sort_by_perm (l : list A) : Permutation (sort_by le l) l.
Proof.
  induction l as [|x l IH]; simpl.
  - apply perm_nil.
  - apply perm_trans with (x :: sort_by le l).
    + apply insert_sorted_perm.
    + apply perm_skip, IH.
Qed.

Lemma sort_by_In (x : A) (l : list A) : In x (sort_by le l) <-> In x l.
Proof.
  split; apply Permutation_in;
    [apply sort_by_perm | apply Permutation_sym, sort_by_perm].
Qed.

Lemma sort_by_length (l : list A) : List.length (sort_by le l) = List.length l.
Proof. apply Permutation_length, sort_by_perm. Qed.

End SortFacts.

(** Rows kept by [drop_duplicates_from]: those whose key is new, at their
    first occurrence. *)
Lemma drop_duplicates_from_In (r : row) (df : DataFrame) :
  forall seen,
    In r (drop_duplicates_from seen df) <->
    first_occurrence r df /\ ~ In (key_of r) seen.
Proof.
  induction df as [|x df IH]; intros seen; simpl.
  - split; [contradiction|].
    intros [[before [after [H _]]] _]. destruct before; discriminate.
  - destruct (existsb (key_eqb (key_of x)) seen) eqn:Hseen.
    + apply existsb_key_In in Hseen. rewrite IH. split.
      * intros [[before [after [Hsplit Hfirst]]] Hnot]. split; [|assumption].
        exists (x :: before), after. split; [simpl; congruence|].
        intros y [<-|Hy]; [congruence | auto].
      * intros [[before [after [Hsplit Hfirst]]] Hnot]. split; [|assumption].
        destruct before as [|b before]; simpl in Hsplit; inversion Hsplit; subst.
        -- contradiction.
        -- exists before, after. split; [reflexivity|]. intros y Hy. apply Hfirst; right; assumption.
    + apply existsb_key_not_In in Hseen. simpl. rewrite IH. split.
      * intros [<-|[[before [after [Hsplit Hfirst]]] Hnot]].
        -- split; [|assumption]. exists [], df. split; [reflexivity | intros y []].
        -- split.
           ++ exists (x :: before), after. split; [simpl; congruence|].
              intros y [<-|Hy]; [|auto]. intros Heq. apply Hnot. left. assumption.
           ++ intros Hin. apply Hnot. right. assumption.
      * intros [[before [after [Hsplit Hfirst]]] Hnot].
        destruct before as [|b before]; simpl in Hsplit; inversion Hsplit; subst.
        -- left; reflexivity.
        -- right. split.
           ++ exists before, after. split; [reflexivity|]. intros y Hy. apply Hfirst; right; assumption.
           ++ intros [Heq|Hin]; [|contradiction].
              apply (Hfirst b); [left; reflexivity | assumption].
Qed.

Lemma drop_duplicates_In (r : row) (df : DataFrame) :
  In r (drop_duplicates df) <-> first_occurrence r df.
Proof.
  unfold drop_duplicates. rewrite drop_duplicates_from_In. tauto.
Qed.

Lemma drop_duplicates_from_NoDup (df : DataFrame) :
  forall seen, NoDup (map key_of (drop_duplicates_from seen df)).
Proof.
  induction df as [|x df IH]; intros seen; simpl.
  - constructor.
  - destruct (existsb (key_eqb (key_of x)) seen) eqn:Hseen; [apply IH|].
    simpl. constructor; [|apply IH].
    rewrite in_map_iff. intros [y [Hkey Hin]].
    apply drop_duplicates_from_In in Hin. destruct Hin as [_ Hnot].
    apply Hnot. left. symmetry. assumption.
Qed.

Lemma drop_duplicates_NoDup (df : DataFrame) :
  NoDup (map key_of (drop_duplicates df)).
Proof. apply drop_duplicates_from_NoDup. Qed.

Lemma first_occurrence_In (r : row) (df : DataFrame) :
  first_occurrence r df -> In r df.
Proof.
  intros [before [after [-> _]]]. apply in_or_app. right. left. reflexivity.
Qed.


Lemma drop_duplicates_from_length (df : DataFrame) :
  forall seen,
    (List.length (drop_duplicates_from seen df) <= List.length df)%nat.
Proof.
  induction df as [|x df IH]; intros seen; simpl; [lia|].
  destruct (existsb (key_eqb (key_of x)) seen).
  - specialize (IH seen). lia.
  - simpl. specialize (IH (key_of x :: seen)). lia.
Qed.

Lemma drop_duplicates_from_id (df : DataFrame) :
  forall seen,
    List.length (drop_duplicates_from seen df) = List.length df <->
    NoDup (map key_of df) /\ (forall k, In k (map key_of df) -> ~ In k seen).
Proof.
  induction df as [|x df IH]; intros seen; simpl.
  - split; [intros _; split; [constructor | intros k []] | reflexivity].
  - destruct (existsb (key_eqb (key_of x)) seen) eqn:Hseen.
    + split.
      * intros Hlen. pose proof (drop_duplicates_from_length df seen). lia.
      * intros [_ Hdisj]. apply existsb_key_In in Hseen.
        exfalso. apply (Hdisj (key_of x)); [left; reflexivity | exact Hseen].
    + apply existsb_key_not_In in Hseen. simpl. split.
      * intros Hlen. injection Hlen as Hlen. apply IH in Hlen.
        destruct Hlen as [Hnodup Hdisj]. split.
        -- constructor; [|exact Hnodup]. intros Hin.
           apply (Hdisj _ Hin). left. reflexivity.
        -- intros k [<-|Hin]; [exact Hseen|].
           intros Hk. apply (Hdisj _ Hin). right. exact Hk.
      * intros [Hnodup Hdisj]. f_equal. apply IH.
        inversion Hnodup as [|k l Hnot Hrest]; subst. split; [exact Hrest|].
        intros k Hin [<-|Hk]; [contradiction|].
        apply (Hdisj k); [right; exact Hin | exact Hk].
Qed.

Lemma has_duplicates_false (df : DataFrame) :
  has_duplicates df = false <-> unique_keys df.
Proof.
  unfold has_duplicates, unique_keys, drop_duplicates.
  rewrite negb_false_iff, Nat.eqb_eq, drop_duplicates_from_id.
  split; [intros [H _]; exact H | intros H; split; [exact H | intros k _ []]].
Qed.

Lemma pivot_Ok (df : DataFrame) :
  unique_keys df <-> pivot df = Ok (reshape df).
Proof.
  unfold pivot. rewrite <- has_duplicates_false.
  destruct (has_duplicates df); split; intros H; congruence.
Qed.

Lemma pivot_inv (df : DataFrame) (w : WideTable) :
  pivot df = Ok w -> unique_keys df /\ w = reshape df.
Proof.
  unfold pivot. destruct (has_duplicates df) eqn:Hdup; [discriminate|].
  intros H. injection H as <-. split; [apply has_duplicates_false, Hdup | reflexivity].
Qed.

End Facts.

Export Facts.
Import Samples.

(** ** Clean *)

Module CleanProps.










End CleanProps.

(** ** Year-over-year growth *)

Module GrowthProps.

Lemma select_indicator_app (n : string) (l1 l2 : DataFrame) :
  select_indicator n (l1 ++ l2) = select_indicator n l1 ++ select_indicator n l2.
Proof. unfold select_indicator. apply filter_app. Qed.

Lemma select_indicator_In (n : string) (r : row) (df : DataFrame) :
  In r (select_indicator n df) <-> In r df /\ indicator_name r = n.
Proof. unfold select_indicator. rewrite filter_In, String.eqb_eq. tauto. Qed.

Lemma filter_none {A : Type} (f : A -> bool) (l : list A) :
  (forall x, In x l -> f x = false) -> filter f l = [].
Proof.
  induction l as [|x l IH]; intros H; simpl; [reflexivity|].
  rewrite (H x (or_introl eq_refl)). apply IH. intros y Hy. apply H. right; assumption.
Qed.

Lemma new_rows_app (df extra : DataFrame) : new_rows df (df ++ extra) = extra.
Proof.
  unfold new_rows. induction df as [|x df IH]; simpl; [reflexivity | exact IH].
Qed.

(** The table built by the pandas calls is the table of [growth_lines]. *)
Lemma growth_lines_correct (l : list row) :
  forall last,
    combine l (map (fun c => fmul c (of_Z 100))
                   (pct_change_from last (ffill_from last (map value l))))
    = growth_lines last l.
Proof.
  induction l as [|r l IH]; intros last; simpl; [reflexivity|].
  f_equal. apply IH.
Qed.

Lemma add_growth_eq (df : DataFrame) (ind : string) :
  add_growth df ind = df ++ growth_of ind (select_indicator ind df).
Proof.
  unfold add_growth, growth_of, pct_change.
  destruct (1 <? List.length (select_indicator ind df))%nat.
  - rewrite growth_lines_correct. reflexivity.
  - rewrite app_nil_r. reflexivity.
Qed.

Lemma yoy_rows_In (ind : string) (r : row) (lines : list (row * float)) :
  In r (yoy_rows ind lines) <->
  exists line, In line lines /\ isna (snd line) = false /\
               r = yoy_row ind (fst line) (snd line).
Proof.
  unfold yoy_rows. rewrite in_flat_map. split.
  - intros [line [Hin Hr]]. exists line. destruct (isna (snd line)); [contradiction|].
    destruct Hr as [<-|[]]. auto.
  - intros [line [Hin [Hna ->]]]. exists line. rewrite Hna. split; [assumption | left; reflexivity].
Qed.

Lemma growth_lines_fst (l : list row) :
  forall last, map fst (growth_lines last l) = l.
Proof. induction l as [|r l IH]; intros last; simpl; [|rewrite IH]; reflexivity. Qed.

Lemma growth_of_In (ind : string) (data : DataFrame) (r : row) :
  In r (growth_of ind data) ->
  indicator_name r = yoy_name ind /\ value r <> NaN /\
  exists r0, In r0 data /\ year r = year r0.
Proof.
  unfold growth_of. destruct (1 <? List.length data)%nat; [|contradiction].
  intros Hin. apply yoy_rows_In in Hin. destruct Hin as [[r0 c] [Hin [Hna ->]]].
  simpl in *. split; [reflexivity|]. split.
  - destruct c; simpl in Hna; congruence.
  - exists r0. split; [|reflexivity].
    apply (sort_by_In year_le). rewrite <- (growth_lines_fst _ NaN).
    apply (in_map fst) in Hin. exact Hin.
Qed.

Lemma select_indicator_growth_of (n ind : string) (data : DataFrame) :
  String.eqb (yoy_name ind) n = false ->
  select_indicator n (growth_of ind data) = [].
Proof.
  intros Hneq. apply filter_none. intros r Hin.
  apply growth_of_In in Hin. destruct Hin as [-> _]. exact Hneq.
Qed.

(** The three turns of the loop read the rows of their indicator in the
    cleaned table: the rows appended by earlier turns carry other names. *)
Lemma add_growth_rates_eq (df : DataFrame) :
  add_growth_rates df =
  df ++ growth_of "gdp_per_capita" (select_indicator "gdp_per_capita" df)
     ++ growth_of "population" (select_indicator "population" df)
     ++ growth_of "gdp_growth" (select_indicator "gdp_growth" df).
Proof.
  unfold add_growth_rates, growth_indicators. simpl fold_left.
  rewrite !add_growth_eq, !select_indicator_app.
  rewrite !select_indicator_growth_of by reflexivity.
  rewrite !app_nil_r, <- !app_assoc. reflexivity.
Qed.












Lemma series_years_NoDup (ind : string) (df : DataFrame) :
  unique_keys df ->
  NoDup (map year (sort_by year_le (select_indicator ind df))).
Proof.
  intros Huniq.
  apply (Permutation_NoDup
           (Permutation_sym (Permutation_map year
                               (sort_by_perm year_le (select_indicator ind df))))).
  unfold unique_keys in Huniq.
  induction df as [|x df IH]; simpl; [constructor|].
  inversion Huniq as [|k l Hnot Hrest]; subst.
  destruct (String.eqb (indicator_name x) ind) eqn:Hname; [|apply IH; exact Hrest].
  simpl. constructor; [|apply IH; exact Hrest].
  intros Hin. apply in_map_iff in Hin. destruct Hin as [r [Hyear Hr]].
  apply select_indicator_In in Hr. destruct Hr as [Hr Hrname].
  apply Hnot. apply in_map_iff. exists r. split; [|exact Hr].
  unfold key_of. apply String.eqb_eq in Hname. congruence.
Qed.






End GrowthProps.

Import GrowthProps.

(** ** The three-year scenario *)

Module ScenarioProps.

(** C3 as stated fails: on [gdp_per_capita] at 100, 110, 121 over 2000 to
    2002 the run succeeds and writes no trend coefficient record, the
    series being shorter than the five observations a trend needs. *)
Lemma three_years_no_trend_record :
  exists fs' log processed_df,
    run_transformation three_years_fs = (fs', log, Ok true) /\
    main_dataset fs' = Some processed_df /\
    ~ exists r, In r processed_df /\
                indicator_name r = trend_name "gdp_per_capita".
Proof.
  destruct (run_transformation three_years_fs) as [[fs' log] res] eqn:Hrun.
  vm_compute in Hrun. injection Hrun as <- <- <-.
  eexists. eexists. eexists. split; [reflexivity|]. split; [reflexivity|].
  intros [r [Hin Hname]]. simpl in Hin.
  repeat (destruct Hin as [<-|Hin]; [discriminate Hname|]). exact Hin.
Qed.

(** C3, as the code has it.  On that input the processed table is the
    three observations followed by the growth records (2001, 10) and
    (2002, 10), with no trend coefficient record; the least-squares slope
    of the three points is 21/2. *)
Theorem three_years_scenario :
  exists fs' log,
    run_transformation three_years_fs = (fs', log, Ok true) /\
    main_dataset fs' =
      Some (gdp_three_years ++
            [ mkRow "Bangladesh" "BGD" "CALC_GDP_PER_CAPITA_YOY"
                    "gdp_per_capita_yoy_growth_pct" 2001 (of_Z 10);
              mkRow "Bangladesh" "BGD" "CALC_GDP_PER_CAPITA_YOY"
                    "gdp_per_capita_yoy_growth_pct" 2002 (of_Z 10) ]) /\
    ols_slope (map inject_Z [2000; 2001; 2002]) [100; 110; 121]%Q == 21 # 2.
Proof.
  destruct (run_transformation three_years_fs) as [[fs' log] res] eqn:Hrun.
  vm_compute in Hrun. injection Hrun as <- <- <-.
  eexists. eexists. split; [reflexivity|]. split; [reflexivity|].
  reflexivity.
Qed.

End ScenarioProps.

(** ** Wide tables *)

Module WideProps.

Section UniqueFacts.
Context {A : Type} (eqb : A -> A -> bool).
Hypothesis eqb_eq : forall x y, eqb x y = true <-> x = y.

Lemma existsb_eqb_In (x : A) (seen : list A) :
  existsb (eqb x) seen = true <-> In x seen.
Proof.
  rewrite existsb_exists. split.
  - intros [y [Hin Heq]]. apply eqb_eq in Heq. subst. exact Hin.
  - intros Hin. exists x. split; [exact Hin | apply eqb_eq; reflexivity].
Qed.

Lemma unique_from_In (x : A) (l : list A) :
  forall seen, In x (unique_from eqb seen l) <-> In x l /\ ~ In x seen.
Proof.
  induction l as [|y l IH]; intros seen; simpl; [tauto|].
  destruct (existsb (eqb y) seen) eqn:Hseen.
  - apply existsb_eqb_In in Hseen. rewrite IH. split.
    + intros [Hin Hnot]. auto.
    + intros [[<-|Hin] Hnot]; [contradiction | auto].
  - assert (Hnot : ~ In y seen).
    { intros Hin. apply existsb_eqb_In in Hin. congruence. }
    simpl. rewrite IH. simpl. split.
    + intros [<-|[Hin Hn]]; [auto|]. split; [auto|]. intros Hx. apply Hn. right. exact Hx.
    + intros [[<-|Hin] Hn]; [auto|].
      destruct (eqb y x) eqn:Hyx.
      * apply eqb_eq in Hyx. auto.
      * right. split; [exact Hin|]. intros [Heq|Hx]; [|contradiction].
        apply eqb_eq in Heq. congruence.
Qed.

Lemma unique_from_NoDup (l : list A) :
  forall seen, NoDup (unique_from eqb seen l).
Proof.
  induction l as [|y l IH]; intros seen; simpl; [constructor|].
  destruct (existsb (eqb y) seen); [apply IH|].
  constructor; [|apply IH]. rewrite unique_from_In. intros [_ Hnot].
  apply Hnot. left. reflexivity.
Qed.

Lemma unique_In (x : A) (l : list A) : In x (unique eqb l) <-> In x l.
Proof. unfold unique. rewrite unique_from_In. simpl. tauto. Qed.

Lemma unique_NoDup (l : list A) : NoDup (unique eqb l).
Proof. apply unique_from_NoDup. Qed.

End UniqueFacts.

Lemma indicator_names_In (n : string) (df : DataFrame) :
  In n (indicator_names df) <-> exists r, In r df /\ indicator_name r = n.
Proof.
  unfold indicator_names. rewrite (unique_In String.eqb String.eqb_eq), in_map_iff.
  split; intros [r [H1 H2]]; exists r; auto.
Qed.

Lemma indicator_names_NoDup (df : DataFrame) : NoDup (indicator_names df).
Proof. apply unique_NoDup, String.eqb_eq. Qed.

Lemma position_In (c : string) (cols : list string) :
  In c cols ->
  exists i, position c cols = Some i /\
            forall (f : string -> float), nth i (map f cols) NaN = f c.
Proof.
  induction cols as [|c' cols IH]; intros Hin; [contradiction|]. simpl.
  destruct (String.eqb c' c) eqn:Heq.
  - apply String.eqb_eq in Heq. subst. exists O. split; reflexivity.
  - destruct Hin as [->|Hin]; [rewrite String.eqb_refl in Heq; discriminate|].
    destruct (IH Hin) as [i [Hpos Hnth]]. exists (S i). rewrite Hpos. split; [reflexivity|].
    intros f. simpl. apply Hnth.
Qed.

Lemma position_not_In (c : string) (cols : list string) :
  ~ In c cols -> position c cols = None.
Proof.
  induction cols as [|c' cols IH]; intros Hnot; simpl; [reflexivity|].
  destruct (String.eqb c' c) eqn:Heq.
  - apply String.eqb_eq in Heq. exfalso. apply Hnot. left. exact Heq.
  - rewrite IH; [reflexivity|]. intros Hin. apply Hnot. right. exact Hin.
Qed.

(** A column of the pivot: the cell of each year of the index, when the
    indicator occurs in the table. *)
Lemma wide_column_reshape (df : DataFrame) (c : string) :
  (In c (indicator_names df) ->
   wide_column (reshape df) c =
     Some (map (fun y => (y, cell df c y)) (wide_index_of df))) /\
  (~ In c (indicator_names df) -> wide_column (reshape df) c = None).
Proof.
  unfold wide_column, reshape. cbn [wide_columns wide_rows]. split.
  - intros Hin. apply (proj2 (sort_by_In string_le c _)) in Hin.
    destruct (position_In c _ Hin) as [i [Hpos Hnth]]. rewrite Hpos. f_equal.
    rewrite map_map. apply map_ext. intros y. cbn [fst snd]. rewrite Hnth. reflexivity.
  - intros Hnot. rewrite position_not_In; [reflexivity|].
    intros Hin. apply Hnot. apply (proj1 (sort_by_In string_le c _)) in Hin. exact Hin.
Qed.

Lemma wide_index_In (y : Z) (df : DataFrame) :
  In y (wide_index_of df) <-> exists r, In r df /\ year r = y.
Proof.
  unfold wide_index_of. rewrite sort_by_In, (unique_In Z.eqb Z.eqb_eq), in_map_iff.
  split; intros [r [H1 H2]]; exists r; auto.
Qed.

Lemma wide_index_NoDup (df : DataFrame) : NoDup (wide_index_of df).
Proof.
  unfold wide_index_of.
  apply (Permutation_NoDup (Permutation_sym (sort_by_perm Z.leb _))).
  apply unique_NoDup, Z.eqb_eq.
Qed.




End WideProps.

Import WideProps.

(** ** The diversification index *)

Module DiversificationProps.

Lemma combine_map_same {A B C : Type} (f : A -> B) (g : A -> C) (l : list A) :
  combine (map f l) (map g l) = map (fun x => (f x, g x)) l.
Proof. induction l as [|x l IH]; simpl; [|rewrite IH]; reflexivity. Qed.

(** The items of the index: one for each year of the pivot, when both
    share columns exist. *)
Lemma diversification_idx_reshape (df : DataFrame) :
  In "agriculture_pct_gdp" (indicator_names df) ->
  In "industry_pct_gdp" (indicator_names df) ->
  diversification_idx (reshape df) =
    map (fun y => (y, diversification (cell df "agriculture_pct_gdp" y)
                                      (cell df "industry_pct_gdp" y)))
        (wide_index_of df).
Proof.
  intros Ha Hi. unfold diversification_idx.
  rewrite (proj1 (wide_column_reshape df _) Ha), (proj1 (wide_column_reshape df _) Hi).
  rewrite combine_map_same, map_map. reflexivity.
Qed.

Lemma diversification_idx_missing (df : DataFrame) :
  ~ In "agriculture_pct_gdp" (indicator_names df) \/
  ~ In "industry_pct_gdp" (indicator_names df) ->
  diversification_idx (reshape df) = [].
Proof.
  intros H. unfold diversification_idx. destruct H as [H|H].
  - rewrite (proj2 (wide_column_reshape df _) H). reflexivity.
  - rewrite (proj2 (wide_column_reshape df _) H).
    destruct (wide_column (reshape df) "agriculture_pct_gdp"); reflexivity.
Qed.

Lemma diversification_rows_In (w : WideTable) (r : row) :
  In r (diversification_rows w) <->
  exists y v, In (y, v) (diversification_idx w) /\ isna v = false /\
              r = diversification_row y v.
Proof.
  unfold diversification_rows. rewrite in_flat_map. split.
  - intros [[y v] [Hin Hr]]. simpl in Hr. destruct (isna v) eqn:Hna; [contradiction|].
    destruct Hr as [<-|[]]. exists y, v. auto.
  - intros [y [v [Hin [Hna ->]]]]. exists (y, v). simpl. rewrite Hna.
    split; [exact Hin | left; reflexivity].
Qed.







Local Open Scope Q_scope.



Local Close Scope Q_scope.










End DiversificationProps.

Import DiversificationProps.

(** ** Trend coefficients *)

Module TrendProps.

Lemma append_length (a b : string) :
  String.length (append a b) = (String.length a + String.length b)%nat.
Proof. induction a as [|c a IH]; simpl; [|rewrite IH]; reflexivity. Qed.

Lemma append_cancel_r (a b s : string) : append a s = append b s -> a = b.
Proof.
  revert b. induction a as [|c a IH]; intros [|c' b] H; simpl in H.
  - reflexivity.
  - apply (f_equal String.length) in H. simpl in H. rewrite append_length in H. lia.
  - apply (f_equal String.length) in H. simpl in H. rewrite append_length in H. lia.
  - injection H as -> H. f_equal. apply IH. exact H.
Qed.

Lemma trend_name_inj (n1 n2 : string) : trend_name n1 = trend_name n2 -> n1 = n2.
Proof. apply append_cancel_r. Qed.

Lemma add_trend_eq (df : DataFrame) (ind : string) :
  add_trend df ind = df ++ trend_of ind (select_indicator ind df).
Proof.
  unfold add_trend, trend_of.
  destruct (5 <=? List.length (select_indicator ind df))%nat; [|rewrite app_nil_r; reflexivity].
  cbv zeta.
  destruct ((1 <? List.length (map year (sort_by year_le (select_indicator ind df))))%nat
            && negb (existsb isna (map value (sort_by year_le (select_indicator ind df)))));
    [reflexivity | rewrite app_nil_r; reflexivity].
Qed.

Lemma trend_of_name (ind : string) (data : DataFrame) (r : row) :
  In r (trend_of ind data) -> indicator_name r = trend_name ind.
Proof.
  unfold trend_of. destruct (5 <=? List.length data)%nat; [|contradiction]. cbv zeta.
  destruct (_ && _); [|contradiction]. intros [<-|[]]. reflexivity.
Qed.

Lemma select_trend_of_other (n ind : string) (data : DataFrame) :
  trend_name ind <> n -> select_indicator n (trend_of ind data) = [].
Proof.
  intros Hneq. apply filter_none. intros r Hin.
  apply trend_of_name in Hin. rewrite Hin. apply String.eqb_neq. exact Hneq.
Qed.

Lemma select_trend_of_same (ind : string) (data : DataFrame) :
  select_indicator (trend_name ind) (trend_of ind data) = trend_of ind data.
Proof.
  unfold select_indicator. apply forallb_filter_id. apply forallb_forall.
  intros r Hin. apply trend_of_name in Hin. rewrite Hin. apply String.eqb_refl.
Qed.

(** The loop appends rows to the table it starts from. *)
Lemma trend_loop_extends (names : list string) :
  forall df, exists extra, fold_left add_trend names df = df ++ extra.
Proof.
  induction names as [|n names IH]; intros df; simpl.
  - exists []. rewrite app_nil_r. reflexivity.
  - destruct (IH (add_trend df n)) as [extra Hextra]. rewrite Hextra, add_trend_eq.
    eexists. rewrite <- app_assoc. reflexivity.
Qed.

Lemma new_rows_app_app (df mid extra : DataFrame) :
  new_rows df ((df ++ mid) ++ extra) = mid ++ new_rows (df ++ mid) ((df ++ mid) ++ extra).
Proof.
  rewrite (new_rows_app (df ++ mid) extra), <- app_assoc. apply new_rows_app.
Qed.

(** The rows named after the trend of [ind] that a run of the loop
    appends, when no name of the loop has [ind] for trend name: those of
    the turn of [ind], computed on the rows of [ind] at entry. *)
Lemma trend_loop_at (ind : string) (names : list string) :
  forall df,
    NoDup names ->
    (forall n, In n names -> trend_name n <> ind) ->
    select_indicator (trend_name ind) (new_rows df (fold_left add_trend names df))
    = if in_dec string_dec ind names
      then trend_of ind (select_indicator ind df) else [].
Proof.
  induction names as [|n names IH]; intros df Hnodup Hcoll.
  - simpl. rewrite <- (app_nil_r df) at 2. rewrite new_rows_app. reflexivity.
  - inversion Hnodup as [|x l Hnot Hrest]; subst. simpl fold_left.
    destruct (trend_loop_extends names (add_trend df n)) as [extra Hextra].
    rewrite Hextra. rewrite add_trend_eq in *.
    rewrite new_rows_app_app, select_indicator_app.
    rewrite <- Hextra, IH; [|exact Hrest | intros m Hm; apply Hcoll; right; exact Hm].
    rewrite select_indicator_app.
    rewrite (select_trend_of_other ind n) by (apply Hcoll; left; reflexivity).
    rewrite app_nil_r.
    destruct (string_dec n ind) as [->|Hneq].
    + rewrite select_trend_of_same.
      destruct (in_dec string_dec ind names) as [Hin|_]; [contradiction|].
      destruct (in_dec string_dec ind (ind :: names)) as [_|Hout];
        [apply app_nil_r | exfalso; apply Hout; left; reflexivity].
    + rewrite select_trend_of_other
        by (intros Heq; apply Hneq, trend_name_inj; exact Heq).
      simpl app.
      destruct (in_dec string_dec ind names) as [Hin|Hout];
        destruct (in_dec string_dec ind (n :: names)) as [Hin'|Hout']; try reflexivity.
      * exfalso. apply Hout'. right. exact Hin.
      * exfalso. destruct Hin' as [Heq|Hin']; [apply Hneq, Heq | apply Hout, Hin'].
Qed.

(** *** The series is sorted: its last year is its latest *)





(** *** The least-squares slope *)

Local Open Scope Q_scope.









Local Close Scope Q_scope.








End TrendProps.

Import TrendProps.

(** ** Pivot and melt *)

Module RoundTripProps.






End RoundTripProps.

(** ** The fact table *)

Module WarehouseProps.



Lemma insert_or_replace_eq (table : list fact) (seq : Z) (r : row) :
  insert_or_replace (table, seq) r
  = (filter (fun f => negb (same_key r f)) table ++ [mkFact (seq + 1) r], seq + 1).
Proof. reflexivity. Qed.





End WarehouseProps.

(** ** The run *)

Module RunProps.

(** The run, phase by phase. *)
Lemma run_transformation_eq (fs : filesystem) :
  run_transformation fs =
  match raw_artifact fs with
  | None => (fs, [PipelineStart; LoadingRawData; FileNotFound], Ok false)
  | Some t =>
      if has_column t "year" then
        match validate_raw_data t with
        | Raise e =>
            (fs, [PipelineStart; LoadingRawData; Loaded (List.length (records t));
                  ValidatingRawData], Raise e)
        | Ok findings =>
            match create_features (clean_data (records t)) with
            | Raise e => (fs, log_until_clean t findings, Raise e)
            | Ok df_features =>
                let processed_df := create_time_series_analysis df_features in
                match pivot processed_df with
                | Raise e =>
                    (mkFs (raw_artifact fs) (Some processed_df)
                          (wide_format fs) (summary_stats fs),
                     log_until_clean t findings
                     ++ [CreatingTimeSeries; SavingProcessedData; SavedMainDataset],
                     Raise e)
                | Ok pivot_df =>
                    (mkFs (raw_artifact fs) (Some processed_df) (Some pivot_df)
                          (Some (generate_summary_statistics processed_df)),
                     log_until_clean t findings
                     ++ [CreatingTimeSeries; SavingProcessedData; SavedMainDataset;
                         SavedWideFormat; GeneratingSummary; SavedSummaryStats;
                         TransformationComplete],
                     Ok true)
                end
            end
        end
      else
        (fs, [PipelineStart; LoadingRawData; Loaded (List.length (records t));
              ErrorLoadingData], Ok false)
  end.
Proof.
  unfold run_transformation, load_raw_data, save_processed_data, log_until_clean,
    bind, print, print_all, lift, ret, read_raw, write_main, write_wide, write_summary.
  destruct (raw_artifact fs) as [t|] eqn:Hraw; [|reflexivity].
  destruct (has_column t "year"); [|reflexivity].
  destruct (validate_raw_data t) as [findings|e]; [|reflexivity].
  destruct (create_features (clean_data (records t))) as [df_features|e];
    [|cbn; reflexivity].
  destruct (pivot (create_time_series_analysis df_features)) as [w|e];
    cbn; rewrite ?app_nil_r, <- ?app_assoc; cbn; try rewrite Hraw; reflexivity.
Qed.

Lemma validate_raises_iff (t : RawTable) :
  (exists e, validate_raw_data t = Raise e) <-> ~ has_required_columns t.
Proof.
  unfold validate_raw_data, has_required_columns.
  destruct (filter (fun col => negb (has_column t col)) required_cols)
    as [|col missing] eqn:Hmissing.
  - split; [intros [e He]; discriminate|].
    intros Hnot. exfalso. apply Hnot. intros col Hin.
    destruct (has_column t col) eqn:Hcol; [reflexivity|].
    assert (Hc : In col (filter (fun col => negb (has_column t col)) required_cols))
      by (apply filter_In; rewrite Hcol; auto).
    rewrite Hmissing in Hc. contradiction.
  - split; [|intros _; eexists; reflexivity].
    intros _ Hall.
    assert (Hc : In col (filter (fun col => negb (has_column t col)) required_cols))
      by (rewrite Hmissing; left; reflexivity).
    apply filter_In in Hc. destruct Hc as [Hin Hneg]. rewrite (Hall col Hin) in Hneg.
    discriminate.
Qed.

Lemma has_required_columns_dec (t : RawTable) :
  has_required_columns t \/ exists col, In col required_cols /\ has_column t col = false.
Proof.
  unfold has_required_columns, required_cols.
  destruct (has_column t "country_name") eqn:H1;
    [|right; exists "country_name"; split; [simpl; tauto | assumption]].
  destruct (has_column t "indicator_name") eqn:H2;
    [|right; exists "indicator_name"; split; [simpl; tauto | assumption]].
  destruct (has_column t "year") eqn:H3; [|right; exists "year"; split; [simpl; tauto | assumption]].
  destruct (has_column t "value") eqn:H4; [|right; exists "value"; split; [simpl; tauto | assumption]].
  left. intros col [<-|[<-|[<-|[<-|[]]]]]; assumption.
Qed.

(** C8.  [validate_raw_data] raises exactly when a required column is
    missing from the table.  When none is, it returns the quality report,
    in which duplicate keys and years outside 1990 to 2030 are findings and
    nothing more, and the run goes on to the Clean phase whatever they are:
    it does not end on the validation error. *)
Theorem validate_fatal_iff_missing_column (t : RawTable) :
  ((exists e, validate_raw_data t = Raise e) <->
   (exists col, In col required_cols /\ has_column t col = false)) /\
  (has_required_columns t ->
   exists report,
     validate_raw_data t =
       Ok [ report;
            (if (0 <? duplicated_count (records t))%nat
             then DuplicatesFound (duplicated_count (records t))
             else NoDuplicatesFound);
            (if unusual_year_range (records t) then UnusualYearRange
             else YearRangeValid) ]) /\
  (has_required_columns t ->
   forall fs, raw_artifact fs = Some t ->
     exists fs' log outcome,
       run_transformation fs = (fs', log, outcome) /\
       In CleaningData log /\
       forall missing_cols, outcome <> Raise (MissingRequiredColumns missing_cols)).
Proof.
  split; [|split].
  - rewrite validate_raises_iff. split.
    + intros Hnot. destruct (has_required_columns_dec t) as [Hall|Hex];
        [contradiction | exact Hex].
    + intros [col [Hin Hcol]] Hall. rewrite (Hall col Hin) in Hcol. discriminate.
  - intros Hall. unfold validate_raw_data.
    destruct (filter (fun col => negb (has_column t col)) required_cols)
      as [|col missing] eqn:Hmissing; [eexists; reflexivity|].
    exfalso. apply (proj1 (validate_raises_iff t)); [|exact Hall].
    unfold validate_raw_data. rewrite Hmissing. eexists. reflexivity.
  - intros Hall fs Hraw. rewrite run_transformation_eq, Hraw.
    rewrite (Hall "year") by (simpl; auto).
    destruct (validate_raw_data t) as [findings|e] eqn:Hval.
    + assert (Hclean : forall rest, In CleaningData (log_until_clean t findings ++ rest)).
      { intros rest. unfold log_until_clean. apply in_or_app. left.
        apply in_or_app. right. apply in_or_app. right. left. reflexivity. }
      destruct (create_features (clean_data (records t))) as [df_features|e] eqn:Hcf.
      * cbv zeta.
        destruct (pivot (create_time_series_analysis df_features)) as [w|e] eqn:Hp;
          do 3 eexists; (split; [reflexivity|]); (split; [apply Hclean|]);
          intros missing_cols Hout; try discriminate Hout.
        injection Hout as ->. unfold pivot in Hp.
        destruct (has_duplicates _); discriminate Hp.
      * do 3 eexists. split; [reflexivity|]. split.
        -- rewrite <- (app_nil_r (log_until_clean t findings)). apply Hclean.
        -- intros missing_cols Hout. injection Hout as ->.
           unfold create_features, pivot in Hcf.
           destruct (has_duplicates _); discriminate Hcf.
    + exfalso. apply (proj1 (validate_raises_iff t)); [eexists; exact Hval | exact Hall].
Qed.

Lemma validate_fatal_iff_missing_column_witness :
  exists fs' log outcome,
    run_transformation three_years_fs = (fs', log, outcome) /\
    In CleaningData log /\
    forall missing_cols, outcome <> Raise (MissingRequiredColumns missing_cols).
Proof.
  assert (Hall : has_required_columns (mkTable all_columns gdp_three_years)).
  { intros col [<-|[<-|[<-|[<-|[]]]]]; reflexivity. }
  destruct (validate_fatal_iff_missing_column (mkTable all_columns gdp_three_years))
    as [_ [_ Hrun]].
  exact (Hrun Hall three_years_fs eq_refl).
Defined.

(** C9.  When the raw artifact is absent the Load phase ends on its
    file-not-found branch, the run returns [False] after it, no later
    phase has printed its banner, and the files are left as they were: no
    artifact is written. *)
Theorem missing_input_aborts (fs : filesystem) :
  raw_artifact fs = None ->
  load_raw_data fs = (fs, [LoadingRawData; FileNotFound], Ok None) /\
  run_transformation fs = (fs, [PipelineStart; LoadingRawData; FileNotFound], Ok false).
Proof.
  intros Hraw. split.
  - unfold load_raw_data, bind, print, read_raw, ret. rewrite Hraw. reflexivity.
  - rewrite run_transformation_eq, Hraw. reflexivity.
Qed.

Lemma missing_input_aborts_witness :
  run_transformation absent_input
  = (absent_input, [PipelineStart; LoadingRawData; FileNotFound], Ok false).
Proof. exact (proj2 (missing_input_aborts absent_input eq_refl)). Defined.

End RunProps.

Import RunProps.

(** ** Null counts of the summary *)

Module SummaryProps.

Lemma all_finite_no_nulls (df : DataFrame) : all_finite df -> no_nulls df.
Proof.
  unfold all_finite, no_nulls. apply Forall_impl. intros r Hfin.
  destruct (value r); [reflexivity | reflexivity | reflexivity | discriminate].
Qed.











End SummaryProps.

Import SummaryProps.

(** * Further properties of the code *)

(** ** Clean: order, standard form, idempotence *)

Module CleanMore.

Section SortedFacts.
Context {A : Type} (le : A -> A -> bool).
Hypothesis le_total : forall x y, le x y = false -> le y x = true.

Lemma insert_sorted_Sorted (x : A) (l : list A) :
  Sorted (fun a b => le a b = true) l ->
  Sorted (fun a b => le a b = true) (insert_sorted le x l).
Proof.
  induction l as [|y l IH]; intros Hs; simpl.
  - repeat constructor.
  - destruct (le x y) eqn:Hxy.
    + constructor; [exact Hs | constructor; exact Hxy].
    + inversion Hs as [|y' l' Hrest Hhd]; subst.
      constructor; [apply IH; exact Hrest|].
      destruct l as [|z l]; simpl.
      * constructor. apply le_total. exact Hxy.
      * destruct (le x z); constructor.
        -- apply le_total. exact Hxy.
        -- inversion Hhd; subst. assumption.
Qed.

Lemma sort_by_Sorted (l : list A) :
  Sorted (fun a b => le a b = true) (sort_by le l).
Proof.
  induction l as [|x l IH]; simpl; [constructor | apply insert_sorted_Sorted, IH].
Qed.

End SortedFacts.


Lemma name_year_le_total (r1 r2 : row) :
  name_year_le r1 r2 = false -> name_year_le r2 r1 = true.
Proof.
  unfold name_year_le. intros H.
  rewrite (String.compare_antisym (indicator_name r2) (indicator_name r1)).
  destruct (String.compare (indicator_name r1) (indicator_name r2)); cbn [CompOpp].
  - apply Z.leb_gt in H. apply Z.leb_le. lia.
  - discriminate H.
  - reflexivity.
Qed.

Lemma compare_refl (s : string) : String.compare s s = Eq.
Proof.
  pose proof (String.compare_antisym s s) as H.
  destruct (String.compare s s); [reflexivity | discriminate H | discriminate H].
Qed.

Lemma name_year_le_order (r1 r2 : row) :
  name_year_le r1 r2 = true <-> name_year_order r1 r2.
Proof.
  unfold name_year_le, name_year_order.
  destruct (String.compare (indicator_name r1) (indicator_name r2)) eqn:Hc.
  - apply String.compare_eq_iff in Hc. rewrite Z.leb_le. split.
    + intros H. right. auto.
    + intros [H|[_ H]]; [discriminate | exact H].
  - split; [intros _; left; reflexivity | reflexivity].
  - split; [discriminate|]. intros [H|[Heq _]]; [discriminate|].
    rewrite Heq, compare_refl in Hc. discriminate Hc.
Qed.


(** *** [strip] *)

















End CleanMore.

Import CleanMore.

(** ** Validate: what the findings say *)

Module ValidateMore.

Lemma duplicated_count_zero (df : DataFrame) :
  duplicated_count df = 0%nat <-> unique_keys df.
Proof.
  rewrite <- has_duplicates_false. unfold duplicated_count, has_duplicates.
  rewrite negb_false_iff, Nat.eqb_eq.
  pose proof (drop_duplicates_from_length df []) as Hle.
  unfold drop_duplicates. lia.
Qed.

Lemma fold_min_lt (l : list Z) :
  forall y b, fold_left Z.min l y < b <-> y < b \/ exists x, In x l /\ x < b.
Proof.
  induction l as [|x l IH]; intros y b; simpl.
  - split; [auto | intros [H|[x [[] _]]]; exact H].
  - rewrite IH. split.
    + intros [H|[z [Hz Hlt]]].
      * destruct (Z.min_spec y x) as [[_ Heq]|[_ Heq]]; rewrite Heq in H;
          [left; exact H | right; exists x; auto].
      * right. exists z. auto.
    + intros [H|[z [[<-|Hz] Hlt]]].
      * left. lia.
      * left. lia.
      * right. exists z. auto.
Qed.

Lemma fold_max_gt (l : list Z) :
  forall y b, b < fold_left Z.max l y <-> b < y \/ exists x, In x l /\ b < x.
Proof.
  induction l as [|x l IH]; intros y b; simpl.
  - split; [auto | intros [H|[x [[] _]]]; exact H].
  - rewrite IH. split.
    + intros [H|[z [Hz Hlt]]].
      * destruct (Z.max_spec y x) as [[_ Heq]|[_ Heq]]; rewrite Heq in H;
          [right; exists x; auto | left; exact H].
      * right. exists z. auto.
    + intros [H|[z [[<-|Hz] Hlt]]].
      * left. lia.
      * left. lia.
      * right. exists z. auto.
Qed.

Lemma unusual_year_range_iff (df : DataFrame) :
  unusual_year_range df = true <-> exists r, In r df /\ unusual_year (year r).
Proof.
  unfold unusual_year_range, year_min, year_max, unusual_year.
  destruct df as [|r0 df]; simpl.
  - split; [discriminate | intros [r [[] _]]].
  - rewrite orb_true_iff, !Z.ltb_lt, fold_min_lt, fold_max_gt. split.
    + intros [[H|[y [Hy Hlt]]]|[H|[y [Hy Hlt]]]].
      * exists r0. auto.
      * apply in_map_iff in Hy. destruct Hy as [r [<- Hr]]. exists r. auto.
      * exists r0. auto.
      * apply in_map_iff in Hy. destruct Hy as [r [<- Hr]]. exists r. auto.
    + intros [r [[<-|Hr] [H|H]]].
      * left. left. exact H.
      * right. left. exact H.
      * left. right. exists (year r). split; [apply in_map; exact Hr | exact H].
      * right. right. exists (year r). split; [apply in_map; exact Hr | exact H].
Qed.

(** X3.  When validation returns, it reports duplicates exactly when two
    rows of the raw table share (indicator_name, year), with the number of
    rows beyond the first of each key; and it reports an unusual year range
    exactly when some row has a year below 1990 or above 2030: an empty
    table is reported as valid on both counts. *)
Theorem validate_findings (t : RawTable) (findings : list finding) :
  validate_raw_data t = Ok findings ->
  (In NoDuplicatesFound findings <-> unique_keys (records t)) /\
  (forall n, In (DuplicatesFound n) findings <->
             ~ unique_keys (records t) /\
             n = (List.length (records t)
                  - List.length (drop_duplicates (records t)))%nat) /\
  (In UnusualYearRange findings <->
   exists r, In r (records t) /\ unusual_year (year r)) /\
  (In YearRangeValid findings <->
   forall r, In r (records t) -> 1990 <= year r <= 2030).
Proof.
  unfold validate_raw_data.
  destruct (filter (fun col => negb (has_column t col)) required_cols); [|discriminate].
  intros H. injection H as <-.
  pose proof (duplicated_count_zero (records t)) as Hdup.
  pose proof (unusual_year_range_iff (records t)) as Hrange.
  fold (duplicated_count (records t)).
  set (report := QualityReport _ _ _ _ _).
  assert (Hvalid : unusual_year_range (records t) = false <->
                   forall r, In r (records t) -> 1990 <= year r <= 2030).
  { split.
    - intros Hun r Hr.
      destruct (Z.lt_ge_cases (year r) 1990) as [Hlo|Hlo].
      { assert (Hx : unusual_year_range (records t) = true)
          by (apply Hrange; exists r; unfold unusual_year; auto). congruence. }
      destruct (Z.lt_ge_cases 2030 (year r)) as [Hhi|Hhi].
      { assert (Hx : unusual_year_range (records t) = true)
          by (apply Hrange; exists r; unfold unusual_year; auto). congruence. }
      lia.
    - intros Hall. apply not_true_is_false. intros Hun.
      apply Hrange in Hun. destruct Hun as [r [Hr Hy]]. specialize (Hall r Hr).
      unfold unusual_year in Hy. lia. }
  split; [|split; [|split]].
  - destruct (0 <? duplicated_count (records t))%nat eqn:Hpos.
    + apply Nat.ltb_lt in Hpos. split.
      * intros [H|[H|[H|[]]]]; [discriminate H | discriminate H |].
        destruct (unusual_year_range (records t)); discriminate H.
      * intros Hu. apply Hdup in Hu. lia.
    + apply Nat.ltb_ge in Hpos. split.
      * intros _. apply Hdup. lia.
      * intros _. right. left. reflexivity.
  - intros n. destruct (0 <? duplicated_count (records t))%nat eqn:Hpos.
    + apply Nat.ltb_lt in Hpos. split.
      * intros [H|[H|[H|[]]]]; [discriminate H | |
          destruct (unusual_year_range (records t)); discriminate H].
        injection H as <-. split; [|reflexivity].
        intros Hu. apply Hdup in Hu. lia.
      * intros [_ ->]. right. left. reflexivity.
    + apply Nat.ltb_ge in Hpos. split.
      * intros [H|[H|[H|[]]]]; [discriminate H | discriminate H |].
        destruct (unusual_year_range (records t)); discriminate H.
      * intros [Hu _]. exfalso. apply Hu, Hdup. lia.
  - rewrite <- Hrange. destruct (unusual_year_range (records t)).
    + split; [reflexivity | intros _; right; right; left; reflexivity].
    + split; [|discriminate].
      intros [H|[H|[H|[]]]]; [discriminate H | | discriminate H].
      destruct (0 <? duplicated_count (records t))%nat; discriminate H.
  - rewrite <- Hvalid. destruct (unusual_year_range (records t)).
    + split; [|discriminate].
      intros [H|[H|[H|[]]]]; [discriminate H | | discriminate H].
      destruct (0 <? duplicated_count (records t))%nat; discriminate H.
    + split; [reflexivity | intros _; right; right; left; reflexivity].
Qed.

Lemma validate_findings_witness :
  exists findings,
    validate_raw_data (mkTable all_columns padded_duplicate) = Ok findings /\
    In (DuplicatesFound 1) findings /\ In YearRangeValid findings.
Proof.
  eexists. split; [reflexivity|].
  destruct (validate_findings (mkTable all_columns padded_duplicate) _ eq_refl)
    as [_ [Hdup [_ Hvalid]]].
  split.
  - apply Hdup. split; [|reflexivity].
    intros Hu. apply has_duplicates_false in Hu. discriminate Hu.
  - apply Hvalid. intros r Hr. simpl in Hr.
    destruct Hr as [<-|[<-|[<-|[]]]]; simpl; lia.
Defined.

End ValidateMore.

Import ValidateMore.

(** ** The run: what it writes and what it leaves *)

Module RunMore.

Lemma validate_missing (t : RawTable) :
  ~ has_required_columns t ->
  validate_raw_data t =
  Raise (MissingRequiredColumns
           (filter (fun col => negb (has_column t col)) required_cols)).
Proof.
  intros Hnot. apply (proj2 (validate_raises_iff t)) in Hnot.
  destruct Hnot as [e He]. unfold validate_raw_data in *.
  destruct (filter (fun col => negb (has_column t col)) required_cols);
    [discriminate He | reflexivity].
Qed.

(** X4.  A raw table without a [year] column never reaches validation:
    the load takes its generic error branch and the run returns [False]
    without raising and without touching a file.  A table with a [year]
    column that lacks another required column makes the run raise the
    validation error, naming the missing columns, before the Clean phase
    and again without touching a file. *)
Theorem run_on_missing_column (fs : filesystem) (t : RawTable) :
  raw_artifact fs = Some t ->
  (has_column t "year" = false ->
   run_transformation fs =
   (fs, [PipelineStart; LoadingRawData; Loaded (List.length (records t));
         ErrorLoadingData], Ok false)) /\
  (has_column t "year" = true -> ~ has_required_columns t ->
   exists log,
     run_transformation fs =
     (fs, log,
      Raise (MissingRequiredColumns
               (filter (fun col => negb (has_column t col)) required_cols))) /\
     ~ In CleaningData log).
Proof.
  intros Hraw. split.
  - intros Hyear. rewrite run_transformation_eq, Hraw, Hyear. reflexivity.
  - intros Hyear Hnot. rewrite run_transformation_eq, Hraw, Hyear.
    rewrite (validate_missing t Hnot). eexists. split; [reflexivity|].
    simpl. intros [H|[H|[H|[H|[]]]]]; discriminate H.
Qed.

Lemma run_on_missing_column_witness :
  run_transformation (mkFs (Some (mkTable ["country_name"; "indicator_name"; "value"]
                                          gdp_three_years)) None None None)
  = (mkFs (Some (mkTable ["country_name"; "indicator_name"; "value"]
                         gdp_three_years)) None None None,
     [PipelineStart; LoadingRawData; Loaded 3; ErrorLoadingData], Ok false).
Proof.
  exact (proj1 (run_on_missing_column
                  (mkFs (Some (mkTable ["country_name"; "indicator_name"; "value"]
                                       gdp_three_years)) None None None)
                  _ eq_refl) eq_refl).
Defined.

(** X5.  No run changes the raw artifact.  A run that returns [True] has
    written all three outputs, and they agree: the long table has one row
    per key, the wide table is its pivot and the summary is computed from
    it.  A run that returns [False] has written nothing. *)
Theorem run_outputs_consistent (fs fs' : filesystem) (log : list event)
        (outcome : result bool) :
  run_transformation fs = (fs', log, outcome) ->
  raw_artifact fs' = raw_artifact fs /\
  (outcome = Ok true ->
   exists processed_df,
     main_dataset fs' = Some processed_df /\
     unique_keys processed_df /\
     wide_format fs' = Some (reshape processed_df) /\
     summary_stats fs' = Some (generate_summary_statistics processed_df)) /\
  (outcome = Ok false -> fs' = fs).
Proof.
  rewrite run_transformation_eq.
  destruct (raw_artifact fs) as [t|] eqn:Hraw.
  - destruct (has_column t "year").
    + destruct (validate_raw_data t) as [findings|e].
      * destruct (create_features (clean_data (records t))) as [df_features|e].
        -- cbv zeta.
           destruct (pivot (create_time_series_analysis df_features)) as [w|e] eqn:Hp;
             intros H; injection H as <- <- <-; cbn [raw_artifact];
             (split; [reflexivity|]); (split; [|discriminate]).
           ++ intros _. apply pivot_inv in Hp. destruct Hp as [Hu ->].
              eexists. cbn. repeat split. exact Hu.
           ++ discriminate.
        -- intros H; injection H as <- <- <-.
           split; [exact Hraw|]. split; discriminate.
      * intros H; injection H as <- <- <-.
        split; [exact Hraw|]. split; discriminate.
    + intros H; injection H as <- <- <-.
      split; [exact Hraw|]. split; [discriminate | reflexivity].
  - intros H; injection H as <- <- <-.
    split; [exact Hraw|]. split; [discriminate | reflexivity].
Qed.

Lemma run_outputs_consistent_witness :
  exists fs' processed_df,
    main_dataset fs' = Some processed_df /\
    wide_format fs' = Some (reshape processed_df) /\
    raw_artifact fs' = raw_artifact three_years_fs.
Proof.
  destruct (run_transformation three_years_fs) as [[fs' log] outcome] eqn:Hrun.
  assert (Hout : outcome = Ok true) by (vm_compute in Hrun; congruence).
  destruct (run_outputs_consistent _ _ _ _ Hrun) as [Hraw [Hok _]].
  destruct (Hok Hout) as [processed_df [Hmain [_ [Hwide _]]]].
  exists fs', processed_df. auto.
Defined.



End RunMore.

Import RunMore.

(** ** The summary table *)

Module SummaryMore.

Lemma select_indicator_cons_length (n : string) (r : row) (df : DataFrame) :
  List.length (select_indicator n (r :: df)) =
  (List.length (select_indicator n df)
   + if String.eqb (indicator_name r) n then 1 else 0)%nat.
Proof.
  unfold select_indicator. simpl.
  destruct (String.eqb (indicator_name r) n); simpl; lia.
Qed.

Lemma total_hits (names : list string) (n : string) :
  NoDup names -> In n names ->
  total (map (fun m => if String.eqb n m then 1%nat else 0%nat) names) = 1%nat.
Proof.
  induction names as [|m names IH]; intros Hnodup Hin; [contradiction|].
  inversion Hnodup as [|x l Hnot Hrest]; subst. simpl.
  destruct (String.eqb n m) eqn:Heq.
  - apply String.eqb_eq in Heq. subst m.
    assert (Hzero : total (map (fun m => if String.eqb n m then 1%nat else 0%nat) names)
                    = 0%nat).
    { clear IH Hin Hrest Hnodup. induction names as [|m names IH]; [reflexivity|].
      simpl. destruct (String.eqb n m) eqn:Heq.
      - apply String.eqb_eq in Heq. subst m. exfalso. apply Hnot. left. reflexivity.
      - apply IH. intros H. apply Hnot. right. exact H. }
    rewrite Hzero. reflexivity.
  - destruct Hin as [->|Hin]; [rewrite String.eqb_refl in Heq; discriminate|].
    simpl. apply IH; assumption.
Qed.

Lemma total_plus {A : Type} (f g : A -> nat) (l : list A) :
  total (map (fun x => (f x + g x)%nat) l) = (total (map f l) + total (map g l))%nat.
Proof. induction l as [|x l IH]; simpl; [reflexivity | rewrite IH; lia]. Qed.

(** The rows of a table, counted indicator by indicator over any list of
    distinct names that covers the table. *)
Lemma counts_add_up (names : list string) :
  NoDup names ->
  forall df,
    (forall r, In r df -> In (indicator_name r) names) ->
    total (map (fun n => List.length (select_indicator n df)) names) = List.length df.
Proof.
  intros Hnodup. induction df as [|r df IH]; intros Hcover.
  - clear Hcover Hnodup. induction names as [|n names IHn]; [reflexivity|].
    simpl. exact IHn.
  - rewrite (map_ext _ (fun n => (List.length (select_indicator n df)
                                  + if String.eqb (indicator_name r) n then 1 else 0)%nat))
      by (intros n; apply select_indicator_cons_length).
    rewrite total_plus, IH by (intros x Hx; apply Hcover; right; exact Hx).
    rewrite total_hits; [simpl; lia | exact Hnodup | apply Hcover; left; reflexivity].
Qed.

(** X7.  The summary has one line for each indicator of the processed
    table, in order of first appearance; every line counts at least one
    row, no more nulls than rows, and the counts add up to the number of
    rows of the table. *)
Theorem summary_counts (processed_df : DataFrame) :
  let summary_df := generate_summary_statistics processed_df in
  map indicator summary_df = indicator_names processed_df /\
  NoDup (map indicator summary_df) /\
  total (map count summary_df) = List.length processed_df /\
  Forall (fun s => (0 < count s)%nat /\ (null_count s <= count s)%nat) summary_df.
Proof.
  cbv zeta. unfold generate_summary_statistics.
  assert (Hnames : map indicator (map (summarize processed_df)
                                      (indicator_names processed_df))
                   = indicator_names processed_df).
  { rewrite map_map. apply map_id. }
  split; [exact Hnames|]. split; [rewrite Hnames; apply indicator_names_NoDup|].
  split.
  - rewrite map_map. cbn [summarize count].
    apply counts_add_up; [apply indicator_names_NoDup|].
    intros r Hr. apply indicator_names_In. exists r. auto.
  - apply Forall_forall. intros s Hs. apply in_map_iff in Hs.
    destruct Hs as [n [<- Hn]]. cbn [summarize count null_count]. split.
    + apply indicator_names_In in Hn. destruct Hn as [r [Hr Hname]].
      assert (Hsel : In r (select_indicator n processed_df))
        by (apply select_indicator_In; auto).
      destruct (select_indicator n processed_df); [contradiction | simpl; lia].
    + rewrite <- (length_map value (select_indicator n processed_df)).
      apply filter_length_le.
Qed.

Lemma fold_min_spec (l : list Z) :
  forall y,
    In (fold_left Z.min l y) (y :: l) /\
    forall x, In x (y :: l) -> fold_left Z.min l y <= x.
Proof.
  induction l as [|z l IH]; intros y; simpl.
  - split; [auto | intros x [<-|[]]; lia].
  - destruct (IH (Z.min y z)) as [Hin Hle]. split.
    + destruct Hin as [Heq|Hin]; [|auto].
      rewrite <- Heq. destruct (Z.min_spec y z) as [[_ ->]|[_ ->]]; auto.
    + pose proof (Hle (Z.min y z) (or_introl eq_refl)) as Hhead.
      intros x [Hx|[Hx|Hx]]; [subst x; lia | subst x; lia |].
      apply Hle. right. exact Hx.
Qed.

Lemma fold_max_spec (l : list Z) :
  forall y,
    In (fold_left Z.max l y) (y :: l) /\
    forall x, In x (y :: l) -> x <= fold_left Z.max l y.
Proof.
  induction l as [|z l IH]; intros y; simpl.
  - split; [auto | intros x [<-|[]]; lia].
  - destruct (IH (Z.max y z)) as [Hin Hle]. split.
    + destruct Hin as [Heq|Hin]; [|auto].
      rewrite <- Heq. destruct (Z.max_spec y z) as [[_ ->]|[_ ->]]; auto.
    + pose proof (Hle (Z.max y z) (or_introl eq_refl)) as Hhead.
      intros x [Hx|[Hx|Hx]]; [subst x; lia | subst x; lia |].
      apply Hle. right. exact Hx.
Qed.

(** X8.  In each line of the summary, [min_year] and [max_year] are years
    of rows of the indicator, and every row of the indicator has its year
    between them. *)
Theorem summary_year_bounds (processed_df : DataFrame) (s : summary) :
  In s (generate_summary_statistics processed_df) ->
  (exists r, In r processed_df /\ indicator_name r = indicator s /\
             year r = min_year s) /\
  (exists r, In r processed_df /\ indicator_name r = indicator s /\
             year r = max_year s) /\
  (forall r, In r processed_df -> indicator_name r = indicator s ->
             min_year s <= year r <= max_year s).
Proof.
  unfold generate_summary_statistics. intros Hs. apply in_map_iff in Hs.
  destruct Hs as [n [<- Hn]]. cbn [summarize indicator min_year max_year].
  apply indicator_names_In in Hn. destruct Hn as [r0 [Hr0 Hname0]].
  assert (Hsel0 : In r0 (select_indicator n processed_df))
    by (apply select_indicator_In; auto).
  set (years := map year (select_indicator n processed_df)).
  assert (Hyears : forall y, In y years <->
                             exists r, In r processed_df /\ indicator_name r = n /\
                                       year r = y).
  { intros y. unfold years. rewrite in_map_iff. split.
    - intros [r [<- Hr]]. apply select_indicator_In in Hr. exists r. tauto.
    - intros [r [Hr [Hname <-]]]. exists r. split; [reflexivity|].
      apply select_indicator_In. auto. }
  assert (Hne : In (hd 0 years) years).
  { unfold years. destruct (select_indicator n processed_df); [contradiction|].
    left. reflexivity. }
  assert (Hcover : forall y, In y (hd 0 years :: years) <-> In y years).
  { intros y. split; [intros [<-|H]; assumption | intros H; right; exact H]. }
  destruct (fold_min_spec years (hd 0 years)) as [Hmin_in Hmin_le].
  destruct (fold_max_spec years (hd 0 years)) as [Hmax_in Hmax_le].
  split; [|split].
  - apply Hyears, Hcover. exact Hmin_in.
  - apply Hyears, Hcover. exact Hmax_in.
  - intros r Hr Hname.
    assert (Hy : In (year r) years) by (apply Hyears; exists r; auto).
    split; [apply Hmin_le | apply Hmax_le]; right; exact Hy.
Qed.

Lemma summary_year_bounds_witness :
  exists s,
    In s (generate_summary_statistics gdp_three_years) /\
    forall r, In r gdp_three_years -> indicator_name r = indicator s ->
              min_year s <= year r <= max_year s.
Proof.
  eexists. split; [left; reflexivity|].
  exact (proj2 (proj2 (summary_year_bounds gdp_three_years _ (or_introl eq_refl)))).
Defined.

End SummaryMore.

Import SummaryMore.

(** ** The fact table after a load *)

Module WarehouseMore.
Import WarehouseProps.

Lemma drop_duplicates_from_seen_ext (df : DataFrame) :
  forall seen1 seen2,
    (forall k, existsb (key_eqb k) seen1 = existsb (key_eqb k) seen2) ->
    drop_duplicates_from seen1 df = drop_duplicates_from seen2 df.
Proof.
  induction df as [|r df IH]; intros seen1 seen2 Hext; [reflexivity|].
  simpl. rewrite (Hext (key_of r)).
  destruct (existsb (key_eqb (key_of r)) seen2).
  - apply IH, Hext.
  - f_equal. apply IH. intros k. simpl. rewrite Hext. reflexivity.
Qed.

Lemma filter_idempotent {A : Type} (f : A -> bool) (l : list A) :
  filter f (filter f l) = filter f l.
Proof.
  induction l as [|x l IH]; [reflexivity|].
  simpl. destruct (f x) eqn:Hf; simpl; [rewrite Hf, IH | rewrite IH]; reflexivity.
Qed.

(** A key already seen is a key filtered out afterwards. *)
Lemma drop_duplicates_from_cons (k : key) (df : DataFrame) :
  forall seen,
    drop_duplicates_from (k :: seen) df
    = filter (fun r => negb (key_eqb (key_of r) k)) (drop_duplicates_from seen df).
Proof.
  induction df as [|r df IH]; intros seen; [reflexivity|].
  cbn [drop_duplicates_from existsb].
  destruct (key_eqb (key_of r) k) eqn:Hk; cbn [orb].
  - destruct (existsb (key_eqb (key_of r)) seen); [apply IH|].
    cbn [filter]. rewrite Hk. cbn [negb].
    apply key_eqb_eq in Hk. rewrite Hk.
    rewrite (IH seen). symmetry. apply filter_idempotent.
  - destruct (existsb (key_eqb (key_of r)) seen); [apply IH|].
    cbn [filter]. rewrite Hk. cbn [negb]. f_equal.
    rewrite <- (IH (key_of r :: seen)).
    apply drop_duplicates_from_seen_ext. intros k'. simpl.
    destruct (key_eqb k' (key_of r)), (key_eqb k' k); reflexivity.
Qed.

Lemma filter_rev_comm {A : Type} (f : A -> bool) (l : list A) :
  filter f (rev l) = rev (filter f l).
Proof.
  induction l as [|x l IH]; [reflexivity|].
  simpl. rewrite filter_app, IH. simpl.
  destruct (f x); simpl; [reflexivity | apply app_nil_r].
Qed.

Lemma keep_last_snoc (df : DataFrame) (r : row) :
  keep_last (df ++ [r])
  = filter (fun x => negb (key_eqb (key_of x) (key_of r))) (keep_last df) ++ [r].
Proof.
  unfold keep_last, drop_duplicates. rewrite rev_app_distr. cbn [rev app].
  cbn [drop_duplicates_from existsb]. cbn [rev].
  rewrite drop_duplicates_from_cons, filter_rev_comm. reflexivity.
Qed.

Lemma observation_filter (r : row) (table : list fact) :
  map observation (filter (fun f => negb (same_key r f)) table)
  = filter (fun x => negb (key_eqb (key_of x) (key_of r))) (map observation table).
Proof.
  induction table as [|f table IH]; [reflexivity|].
  cbn [filter map]. unfold same_key at 1.
  destruct (key_eqb (key_of (observation f)) (key_of r)); cbn [negb map];
    rewrite IH; reflexivity.
Qed.

Lemma drop_duplicates_from_keys (df : DataFrame) :
  forall seen k,
    In k (map key_of df) ->
    In k seen \/ In k (map key_of (drop_duplicates_from seen df)).
Proof.
  induction df as [|x df IH]; intros seen k Hin; [contradiction|].
  simpl. destruct (existsb (key_eqb (key_of x)) seen) eqn:Hseen.
  - destruct Hin as [<-|Hin]; [left; apply existsb_key_In; exact Hseen | apply IH, Hin].
  - destruct Hin as [<-|Hin]; [right; left; reflexivity|].
    destruct (IH (key_of x :: seen) k Hin) as [[<-|Hs]|Hd].
    + right. left. reflexivity.
    + left. exact Hs.
    + right. right. exact Hd.
Qed.

Lemma keep_last_keys (df : DataFrame) :
  NoDup (map key_of (keep_last df)) /\
  forall k, In k (map key_of (keep_last df)) <-> In k (map key_of df).
Proof.
  unfold keep_last. split.
  - rewrite map_rev. apply NoDup_rev. apply drop_duplicates_NoDup.
  - intros k. rewrite map_rev, <- in_rev. split.
    + rewrite !in_map_iff. intros [r [Hk Hin]]. exists r. split; [exact Hk|].
      apply drop_duplicates_In, first_occurrence_In in Hin.
      apply in_rev. exact Hin.
    + intros Hin.
      destruct (drop_duplicates_from_keys (rev df) [] k) as [[]|Hd]; [|exact Hd].
      rewrite map_rev, <- in_rev. exact Hin.
Qed.


(** The inserts of a load, one after the other: the table holds the last
    row of each key, under keys that grow with the order of insertion. *)
Lemma load_fold (seq : Z) (df : DataFrame) :
  let loaded := fold_left insert_or_replace df ([], seq) in
  map observation (fst loaded) = keep_last df /\
  snd loaded = seq + Z.of_nat (List.length df) /\
  StronglySorted Z.lt (map id (fst loaded)) /\
  Forall (fun f => seq < id f <= seq + Z.of_nat (List.length df)) (fst loaded).
Proof.
  cbv zeta. induction df as [|r df IH] using rev_ind.
  - simpl. repeat split; [lia | constructor | constructor].
  - rewrite fold_left_app. cbn [fold_left].
    destruct (fold_left insert_or_replace df ([], seq)) as [table next] eqn:Hfold.
    cbn [fst snd] in IH. destruct IH as [Hobs [Hnext [Hsorted Hbound]]].
    rewrite insert_or_replace_eq. cbn [fst snd].
    rewrite length_app. cbn [List.length].
    assert (Hfilter_bound :
              Forall (fun f => seq < id f <= seq + Z.of_nat (List.length df))
                     (filter (fun f => negb (same_key r f)) table)).
    { apply Forall_forall. intros f Hf. apply filter_In in Hf.
      exact (proj1 (Forall_forall _ _) Hbound f (proj1 Hf)). }
    split; [|split; [|split]].
    + rewrite map_app, observation_filter, Hobs, keep_last_snoc. reflexivity.
    + lia.
    + rewrite map_app. cbn [map id].
      assert (Hsub : StronglySorted Z.lt
                       (map id (filter (fun f => negb (same_key r f)) table))).
      { clear Hbound Hfilter_bound Hobs Hfold.
        induction table as [|f table IHt]; [constructor|].
        cbn [map] in Hsorted. apply StronglySorted_inv in Hsorted.
        destruct Hsorted as [Hrest Hall]. cbn [filter].
        destruct (negb (same_key r f)); [|apply IHt; exact Hrest].
        cbn [map]. constructor; [apply IHt; exact Hrest|].
        apply Forall_forall. intros x Hx. apply in_map_iff in Hx.
        destruct Hx as [g [<- Hg]]. apply filter_In in Hg.
        apply (proj1 (Forall_forall _ _) Hall). apply in_map. exact (proj1 Hg). }
      revert Hsub Hfilter_bound.
      generalize (filter (fun f => negb (same_key r f)) table) as kept.
      induction kept as [|f kept IHk]; intros Hsub Hb.
      * constructor; constructor.
      * cbn [map app]. cbn [map] in Hsub. apply StronglySorted_inv in Hsub.
        destruct Hsub as [Hrest Hall]. inversion Hb as [|f' l' Hf Hb']; subst.
        constructor; [apply IHk; assumption|].
        apply Forall_app. split; [exact Hall|]. constructor; [lia | constructor].
    + apply Forall_app. split.
      * apply Forall_forall. intros f Hf.
        pose proof (proj1 (Forall_forall _ _) Hfilter_bound f Hf) as Hb.
        cbv beta in Hb. lia.
      * constructor; [cbn [id]; lia | constructor].
Qed.





Lemma filter_single (table : list fact) (f : fact) :
  NoDup (fact_keys table) -> In f table ->
  filter (fun g => key_eqb (key_of (observation g)) (key_of (observation f))) table = [f].
Proof.
  unfold fact_keys. induction table as [|g table IH]; intros Hnodup Hin; [contradiction|].
  cbn [map] in Hnodup. inversion Hnodup as [|k l Hnot Hrest]; subst.
  cbn [filter]. destruct Hin as [->|Hin].
  - rewrite key_eqb_refl. f_equal. apply filter_none. intros g Hg.
    destruct (key_eqb (key_of (observation g)) (key_of (observation f))) eqn:Hk;
      [|reflexivity].
    apply key_eqb_eq in Hk. exfalso. apply Hnot. rewrite <- Hk.
    apply (in_map (fun f => key_of (observation f))). exact Hg.
  - destruct (key_eqb (key_of (observation g)) (key_of (observation f))) eqn:Hk.
    + apply key_eqb_eq in Hk. exfalso. apply Hnot. rewrite Hk.
      apply (in_map (fun f => key_of (observation f))). exact Hin.
    + apply IH; assumption.
Qed.

(** On a table with one line per key, the view has a line for each line of
    the latest year, and the window of each holds that line alone. *)
Lemma latest_view_lines (table : list fact) (line : latest_line) :
  NoDup (fact_keys table) ->
  In line (v_latest_indicators table) ->
  exists f latest,
    In f table /\ latest_year table = Some latest /\
    year (observation f) = latest /\
    line = mkLatest (indicator_name (observation f)) latest
                    (sql_value (value (observation f))) None None.
Proof.
  intros Hnodup. unfold v_latest_indicators.
  destruct (latest_year table) as [latest|]; [|contradiction].
  cbv zeta. intros Hin. apply in_map_iff in Hin. destruct Hin as [f [<- Hf]].
  apply filter_In in Hf. destruct Hf as [Hf Hyear]. apply Z.eqb_eq in Hyear.
  exists f, latest. split; [exact Hf|]. split; [reflexivity|]. split; [exact Hyear|].
  assert (Hpart :
            filter (fun g => String.eqb (indicator_name (observation g))
                                        (indicator_name (observation f)))
                   (filter (fun g => year (observation g) =? latest) table) = [f]).
  { rewrite <- (filter_single table f Hnodup Hf).
    clear Hf Hnodup. induction table as [|g table IH]; [reflexivity|].
    cbn [filter].
    assert (Hk : key_eqb (key_of (observation g)) (key_of (observation f))
                 = String.eqb (indicator_name (observation g))
                              (indicator_name (observation f))
                   && (year (observation g) =? latest))
      by (unfold key_eqb, key_of; cbn [fst snd]; rewrite Hyear; reflexivity).
    rewrite Hk.
    destruct (year (observation g) =? latest);
      destruct (String.eqb (indicator_name (observation g))
                           (indicator_name (observation f))) eqn:Hn;
      cbn [filter andb]; rewrite ?Hn; rewrite IH; reflexivity. }
  rewrite Hpart. cbn [sort_by insert_sorted lag_value]. rewrite Z.eqb_refl.
  rewrite Hyear. destruct (sql_value (value (observation f))); reflexivity.
Qed.

(** X11.  After any load, [v_latest_indicators] shows one line for each
    line of the fact table at its latest year, and in none of them a
    previous value or a change: the lines of earlier years are filtered out
    before the window function looks for them. *)
Theorem latest_view_has_no_previous_value (df_main : DataFrame) (old : list fact)
        (seq : Z) (table : list fact) (seq' : Z) :
  load_processed_data (Some df_main) (mkWarehouse (Some old) seq)
  = (true, mkWarehouse (Some table) seq') ->
  Forall (fun line => previous_year_value line = None /\
                      year_over_year_change line = None /\
                      Some (latest_line_year line) = latest_year table)
         (v_latest_indicators table) /\
  List.length (v_latest_indicators table)
  = List.length (filter (fun f => match latest_year table with
                                  | Some latest => year (observation f) =? latest
                                  | None => false
                                  end) table).
Proof.
  intros Hload.
  destruct (load_fold seq df_main) as [Hobs _].
  unfold load_processed_data in Hload. cbn [economic_indicators sqlite_sequence] in Hload.
  injection Hload as Htable _.
  assert (Hnodup : NoDup (fact_keys table)).
  { unfold fact_keys. rewrite <- Htable, <- (map_map observation key_of), Hobs.
    apply keep_last_keys. }
  split.
  - apply Forall_forall. intros line Hin.
    destruct (latest_view_lines table line Hnodup Hin)
      as [f [latest [_ [Hlatest [_ ->]]]]].
    cbn. rewrite Hlatest. auto.
  - unfold v_latest_indicators. destruct (latest_year table); [|clear; induction table; auto].
    cbv zeta. apply length_map.
Qed.

Lemma latest_view_has_no_previous_value_witness :
  Forall (fun line => previous_year_value line = None /\
                      year_over_year_change line = None /\
                      Some (latest_line_year line) = Some 2002)
         (v_latest_indicators
            [mkFact 1 (obs "gdp_per_capita" 2000 (of_Z 100));
             mkFact 2 (obs "gdp_per_capita" 2001 (of_Z 110));
             mkFact 3 (obs "gdp_per_capita" 2002 (of_Z 121))]).
Proof.
  exact (proj1 (latest_view_has_no_previous_value gdp_three_years [] 0 _ _ eq_refl)).
Defined.

End WarehouseMore.

Import WarehouseMore.

(** ** What the derivations append, and when they fail *)

Module FeaturesMore.
Import CleanProps.






Lemma yoy_rows_cons (ind : string) (line : row * float) (lines : list (row * float)) :
  yoy_rows ind (line :: lines)
  = (if isna (snd line) then [] else [yoy_row ind (fst line) (snd line)])
    ++ yoy_rows ind lines.
Proof. reflexivity. Qed.

Lemma yoy_rows_keys_NoDup (ind : string) (lines : list (row * float)) :
  NoDup (map year (map fst lines)) -> NoDup (map key_of (yoy_rows ind lines)).
Proof.
  induction lines as [|line lines IH]; intros H; [constructor|].
  cbn [map] in H. inversion H as [|y l Hnot Hrest]; subst.
  rewrite yoy_rows_cons.
  destruct (isna (snd line)); cbn [app]; [apply IH; exact Hrest|].
  cbn [map]. constructor; [|apply IH; exact Hrest].
  intros Hin. apply in_map_iff in Hin. destruct Hin as [g [Hk Hg]].
  apply yoy_rows_In in Hg. destruct Hg as [line' [Hline [_ ->]]].
  apply Hnot. unfold key_of, yoy_row in Hk. cbn in Hk. injection Hk as Hy.
  rewrite <- Hy. apply in_map. apply in_map. exact Hline.
Qed.

Lemma growth_of_keys_NoDup (ind : string) (df : DataFrame) :
  unique_keys df ->
  NoDup (map key_of (growth_of ind (select_indicator ind df))).
Proof.
  intros Huniq. unfold growth_of.
  destruct (1 <? List.length (select_indicator ind df))%nat; [|constructor].
  apply yoy_rows_keys_NoDup. rewrite growth_lines_fst.
  apply series_years_NoDup. exact Huniq.
Qed.

Lemma growth_of_key_name (ind : string) (data : DataFrame) (k : key) :
  In k (map key_of (growth_of ind data)) -> fst k = yoy_name ind.
Proof.
  intros Hin. apply in_map_iff in Hin. destruct Hin as [g [<- Hg]].
  apply growth_of_In in Hg. exact (proj1 Hg).
Qed.

Lemma add_growth_rates_rows (df : DataFrame) :
  add_growth_rates df = df ++ growth_rows df.
Proof.
  rewrite add_growth_rates_eq. unfold growth_rows, growth_indicators.
  cbn [flat_map]. rewrite app_nil_r. reflexivity.
Qed.

Lemma growth_rows_In (df : DataFrame) (g : row) :
  In g (growth_rows df) <->
  exists ind, In ind growth_indicators /\
              In g (growth_of ind (select_indicator ind df)).
Proof. unfold growth_rows. apply in_flat_map. Qed.

Lemma growth_rows_keys_NoDup (df : DataFrame) :
  unique_keys df -> NoDup (map key_of (growth_rows df)).
Proof.
  intros Huniq. unfold growth_rows, growth_indicators. cbn [flat_map].
  rewrite app_nil_r, !map_app.
  apply NoDup_app; [apply growth_of_keys_NoDup; exact Huniq | |].
  - apply NoDup_app; [apply growth_of_keys_NoDup; exact Huniq
                     | apply growth_of_keys_NoDup; exact Huniq |].
    intros k H1 H2. apply growth_of_key_name in H1, H2.
    rewrite H1 in H2. discriminate H2.
  - intros k H1 H2. apply growth_of_key_name in H1.
    apply in_app_or in H2. destruct H2 as [H2|H2];
      apply growth_of_key_name in H2; rewrite H1 in H2; discriminate H2.
Qed.

Lemma not_unique_duplicates (df : DataFrame) :
  ~ unique_keys df -> pivot df = Raise DuplicateEntries.
Proof.
  intros Hnot. unfold pivot. destruct (has_duplicates df) eqn:Hd; [reflexivity|].
  exfalso. apply Hnot. apply has_duplicates_false. exact Hd.
Qed.

Lemma unique_keys_app (l1 l2 : DataFrame) :
  unique_keys l1 -> unique_keys l2 ->
  (forall r g, In r l1 -> In g l2 -> key_of r <> key_of g) ->
  unique_keys (l1 ++ l2).
Proof.
  unfold unique_keys. intros H1 H2 Hd. rewrite map_app.
  apply NoDup_app; [exact H1 | exact H2 |].
  intros k Hk1 Hk2. apply in_map_iff in Hk1, Hk2.
  destruct Hk1 as [r [Hr Hin1]], Hk2 as [g [Hg Hin2]].
  apply (Hd r g Hin1 Hin2). congruence.
Qed.

Lemma shared_key_not_unique (l1 l2 : DataFrame) (r g : row) :
  In r l1 -> In g l2 -> key_of r = key_of g -> ~ unique_keys (l1 ++ l2).
Proof.
  unfold unique_keys. intros Hr Hg Hk Hnodup. rewrite map_app in Hnodup.
  apply (in_map key_of) in Hr, Hg. rewrite Hk in Hr.
  apply in_split in Hr. destruct Hr as [a [b Hab]]. rewrite Hab in Hnodup.
  rewrite <- app_assoc in Hnodup. cbn [app] in Hnodup.
  apply NoDup_remove_2 in Hnodup. apply Hnodup.
  apply in_or_app. right. apply in_or_app. right. exact Hg.
Qed.

(** X12.  On a table with one row per key, feature derivation fails
    exactly on a taken key: when no row of the table has the key of a growth
    row to be appended, it returns the table followed by the growth rows
    and the diversification rows; when some row has such a key, the pivot
    in the middle of it raises, and nothing is returned. *)
Theorem create_features_fails_on_taken_key (df_clean : DataFrame) :
  unique_keys df_clean ->
  ((forall r g, In r df_clean -> In g (growth_rows df_clean) ->
                key_of r <> key_of g) ->
   create_features df_clean =
   Ok (df_clean ++ growth_rows df_clean
       ++ diversification_rows (reshape (df_clean ++ growth_rows df_clean)))) /\
  (forall r g, In r df_clean -> In g (growth_rows df_clean) ->
               key_of r = key_of g ->
               create_features df_clean = Raise DuplicateEntries).
Proof.
  intros Huniq. unfold create_features. rewrite add_growth_rates_rows. split.
  - intros Hfree.
    assert (Hu : unique_keys (df_clean ++ growth_rows df_clean)).
    { apply unique_keys_app; [exact Huniq | | exact Hfree].
      apply growth_rows_keys_NoDup. exact Huniq. }
    rewrite (proj1 (pivot_Ok _) Hu), <- app_assoc. reflexivity.
  - intros r g Hr Hg Hk.
    rewrite (not_unique_duplicates _ (shared_key_not_unique _ _ r g Hr Hg Hk)).
    reflexivity.
Qed.

Lemma create_features_fails_on_taken_key_witness :
  create_features
    (gdp_three_years ++ [obs "gdp_per_capita_yoy_growth_pct" 2001 (of_Z 7)])
  = Raise DuplicateEntries.
Proof.
  assert (Huniq : unique_keys
                    (gdp_three_years
                     ++ [obs "gdp_per_capita_yoy_growth_pct" 2001 (of_Z 7)]))
    by (apply has_duplicates_false; reflexivity).
  apply (proj2 (create_features_fails_on_taken_key _ Huniq)
               (obs "gdp_per_capita_yoy_growth_pct" 2001 (of_Z 7))
               (yoy_row "gdp_per_capita" (obs "gdp_per_capita" 2001 (of_Z 110))
                        (of_Z 10))).
  - simpl. auto.
  - vm_compute. auto.
  - reflexivity.
Defined.



Lemma diversification_index_years (df : DataFrame) :
  NoDup (map fst (diversification_idx (reshape df))) /\
  forall y, In y (map fst (diversification_idx (reshape df))) ->
            exists r, In r df /\ year r = y.
Proof.
  destruct (in_dec string_dec "agriculture_pct_gdp" (indicator_names df)) as [Ha|Ha];
    [|rewrite diversification_idx_missing by (left; exact Ha);
      split; [constructor | intros y []]].
  destruct (in_dec string_dec "industry_pct_gdp" (indicator_names df)) as [Hi|Hi];
    [|rewrite diversification_idx_missing by (right; exact Hi);
      split; [constructor | intros y []]].
  rewrite (diversification_idx_reshape df Ha Hi), map_map. cbn [fst].
  rewrite map_id. split; [apply wide_index_NoDup | intros y; apply wide_index_In].
Qed.











(** X14.  Feature derivation only appends: the table it returns is the
    cleaned table, unchanged and in front, followed by rows that bear the
    name of a growth rate or of the diversification index, hold a value that
    is not null, and sit at a year of a row of the cleaned table. *)
Theorem create_features_appends (df_clean df_features : DataFrame) :
  create_features df_clean = Ok df_features ->
  exists extra,
    df_features = df_clean ++ extra /\
    Forall (fun r =>
              (indicator_name r = "economic_diversification_index" \/
               exists ind, In ind growth_indicators /\
                           indicator_name r = yoy_name ind) /\
              isna (value r) = false /\
              exists r0, In r0 df_clean /\ year r = year r0) extra.
Proof.
  unfold create_features. rewrite add_growth_rates_rows.
  destruct (pivot (df_clean ++ growth_rows df_clean)) as [w|e] eqn:Hp; [|discriminate].
  intros H. injection H as <-. apply pivot_inv in Hp. destruct Hp as [_ ->].
  exists (growth_rows df_clean
          ++ diversification_rows (reshape (df_clean ++ growth_rows df_clean))).
  split; [rewrite app_assoc; reflexivity|].
  assert (Hgrowth : forall g, In g (growth_rows df_clean) ->
                              (exists ind, In ind growth_indicators /\
                                           indicator_name g = yoy_name ind) /\
                              isna (value g) = false /\
                              exists r0, In r0 df_clean /\ year g = year r0).
  { intros g Hg. apply growth_rows_In in Hg. destruct Hg as [ind [Hind Hg]].
    apply growth_of_In in Hg. destruct Hg as [Hname [Hval [r0 [Hr0 Hy]]]].
    split; [exists ind; auto|]. split.
    - destruct (value g); simpl; congruence.
    - exists r0. apply select_indicator_In in Hr0. tauto. }
  apply Forall_app. split; apply Forall_forall; intros r Hr.
  - destruct (Hgrowth r Hr) as [Hn [Hv Hy]]. auto.
  - apply diversification_rows_In in Hr. destruct Hr as [y [v [Hin [Hna ->]]]].
    cbn [diversification_row indicator_name value year].
    split; [left; reflexivity|]. split; [exact Hna|].
    destruct (diversification_index_years (df_clean ++ growth_rows df_clean)) as [_ Hyears].
    destruct (Hyears y) as [r [Hr Hy]];
      [apply in_map_iff; exists (y, v); auto|].
    apply in_app_or in Hr. destruct Hr as [Hr|Hr]; [exists r; auto|].
    destruct (Hgrowth r Hr) as [_ [_ [r0 [Hr0 Hy0]]]]. exists r0. split; [exact Hr0|].
    congruence.
Qed.

Lemma create_features_appends_witness :
  exists extra,
    add_growth_rates gdp_three_years ++ [] = gdp_three_years ++ extra /\
    Forall (fun r => isna (value r) = false) extra.
Proof.
  destruct (create_features_appends gdp_three_years
              (add_growth_rates gdp_three_years ++ []) eq_refl)
    as [extra [Heq Hall]].
  exists extra. split; [exact Heq|].
  apply Forall_forall. intros r Hr.
  exact (proj1 (proj2 (proj1 (Forall_forall _ _) Hall r Hr))).
Defined.



Lemma trend_of_nonempty (ind : string) (data : DataFrame) :
  trend_of ind data <> [] <->
  (5 <= List.length data)%nat /\ Forall (fun r => isna (value r) = false) data.
Proof.
  unfold trend_of.
  assert (Hnulls : existsb isna (map value (sort_by year_le data)) = false <->
                   Forall (fun r => isna (value r) = false) data).
  { rewrite Forall_forall. split.
    - intros Hex r Hr.
      destruct (isna (value r)) eqn:Hna; [|reflexivity].
      rewrite <- Hex. symmetry. apply existsb_exists. exists (value r).
      split; [|exact Hna]. apply in_map. apply (proj2 (sort_by_In year_le r data)). exact Hr.
    - intros Hall. destruct (existsb isna (map value (sort_by year_le data))) eqn:Hex;
        [|reflexivity].
      apply existsb_exists in Hex. destruct Hex as [v [Hv Hna]].
      apply in_map_iff in Hv. destruct Hv as [r [<- Hr]].
      apply (proj1 (sort_by_In year_le r data)) in Hr.
      rewrite (Hall r Hr) in Hna. discriminate. }
  destruct (5 <=? List.length data)%nat eqn:Hlen.
  - apply Nat.leb_le in Hlen. cbv zeta.
    assert (Hone : (1 <? List.length (map year (sort_by year_le data)))%nat = true)
      by (apply Nat.ltb_lt; rewrite length_map, sort_by_length; lia).
    rewrite Hone. cbn [andb].
    destruct (existsb isna (map value (sort_by year_le data))) eqn:Hex; cbn [negb].
    + split; [intros H; contradiction H; reflexivity|].
      intros [_ Hall]. apply Hnulls in Hall. discriminate.
    + split; [intros _; split; [exact Hlen | apply Hnulls; reflexivity] | discriminate].
  - apply Nat.leb_gt in Hlen. split; [intros H; contradiction H; reflexivity|].
    intros [H _]. lia.
Qed.

(** X16.  When no indicator of the table has [ind] for trend name, the
    time-series phase appends a trend row for [ind] if and only if [ind]
    has at least five rows and none of them holds a null value. *)
Theorem trend_row_needs_five_rows (df_features : DataFrame) (ind : string) :
  In ind (indicator_names df_features) ->
  (forall n, In n (indicator_names df_features) -> trend_name n <> ind) ->
  select_indicator (trend_name ind)
    (new_rows df_features (create_time_series_analysis df_features)) <> [] <->
  (5 <= List.length (select_indicator ind df_features))%nat /\
  Forall (fun r => isna (value r) = false) (select_indicator ind df_features).
Proof.
  intros Hind Hfree. unfold create_time_series_analysis.
  rewrite (trend_loop_at ind (indicator_names df_features) df_features
                         (indicator_names_NoDup df_features) Hfree).
  destruct (in_dec string_dec ind (indicator_names df_features)); [|contradiction].
  apply trend_of_nonempty.
Qed.

Lemma trend_row_needs_five_rows_witness :
  select_indicator (trend_name "gdp_per_capita")
    (new_rows gdp_three_years (create_time_series_analysis gdp_three_years)) = [].
Proof.
  assert (Hind : In "gdp_per_capita" (indicator_names gdp_three_years))
    by (left; reflexivity).
  assert (Hfree : forall n, In n (indicator_names gdp_three_years) ->
                            trend_name n <> "gdp_per_capita")
    by (intros n [<-|[]]; discriminate).
  destruct (select_indicator (trend_name "gdp_per_capita")
              (new_rows gdp_three_years (create_time_series_analysis gdp_three_years)))
    as [|r l] eqn:Hsel; [reflexivity|].
  exfalso.
  assert (Hne : r :: l <> []) by discriminate.
  rewrite <- Hsel in Hne.
  apply (proj1 (trend_row_needs_five_rows gdp_three_years "gdp_per_capita" Hind Hfree))
    in Hne.
  destruct Hne as [Hlen _]. simpl in Hlen. lia.
Defined.





End FeaturesMore.

Import FeaturesMore.

(** ** The ingest script and the tasks of the flow *)

Module IngestMore.
Import IngestSamples.

Lemma collect_record_In (code name : string) (record : api_record)
      (ps : list pending) (p : pending) :
  collect_record code name record = Done ps -> In p ps ->
  pending_indicator_code p = code /\ pending_indicator_name p = name /\
  api_value record = Some (pending_value p).
Proof.
  unfold collect_record. destruct (api_value record) as [v|].
  - destruct (api_country_field record) as [| |n i]; [|discriminate|];
      destruct (api_date_field record); try discriminate;
      intros H; injection H as <-; intros [<-|[]]; auto.
  - intros H. injection H as <-. intros [].
Qed.

Lemma collect_records_In (code name : string) (data : list api_record) :
  forall ps p,
    collect_records code name data = Done ps -> In p ps ->
    pending_indicator_code p = code /\ pending_indicator_name p = name /\
    exists record, In record data /\ api_value record = Some (pending_value p).
Proof.
  induction data as [|record data IH]; intros ps p; cbn [collect_records].
  - intros H. injection H as <-. intros [].
  - destruct (collect_record code name record) as [first|] eqn:Hfirst; [|discriminate].
    destruct (collect_records code name data) as [others|]; [|discriminate].
    intros H. injection H as <-. intros Hin. apply in_app_or in Hin.
    destruct Hin as [Hin|Hin].
    + destruct (collect_record_In _ _ _ _ _ Hfirst Hin) as [Hc [Hn Hv]].
      split; [exact Hc|]. split; [exact Hn|]. exists record. split; [left; reflexivity | exact Hv].
    + destruct (IH others p eq_refl Hin) as [Hc [Hn [r [Hr Hv]]]].
      split; [exact Hc|]. split; [exact Hn|]. exists r. split; [right; exact Hr | exact Hv].
Qed.

Lemma collect_all_In (fetch : string -> option (list api_record))
      (catalog : list (string * string)) :
  forall ps p,
    collect_all fetch catalog = Done ps -> In p ps ->
    In (pending_indicator_code p, pending_indicator_name p) catalog /\
    exists data record,
      fetch (pending_indicator_code p) = Some data /\ In record data /\
      api_value record = Some (pending_value p).
Proof.
  induction catalog as [|[code name] catalog IH]; intros ps p; cbn [collect_all].
  - intros H. injection H as <-. intros [].
  - destruct (fetch code) as [data|] eqn:Hfetch.
    + destruct (collect_records code name data) as [first|] eqn:Hfirst; [|discriminate].
      destruct (collect_all fetch catalog) as [others|]; [|discriminate].
      intros H. injection H as <-. intros Hin. apply in_app_or in Hin.
      destruct Hin as [Hin|Hin].
      * destruct (collect_records_In _ _ _ _ _ Hfirst Hin) as [Hc [Hn [r [Hr Hv]]]].
        subst. split; [left; reflexivity|]. exists data, r. auto.
      * destruct (IH others p eq_refl Hin) as [Hcat Hrec].
        split; [right; exact Hcat | exact Hrec].
    + destruct (collect_all fetch catalog) as [others|]; [|discriminate].
      intros H. injection H as <-. cbn [app]. intros Hin.
      destruct (IH others p eq_refl Hin) as [Hcat Hrec].
      split; [right; exact Hcat | exact Hrec].
Qed.

Lemma dropna_value_year_In (all_records : list pending) (r : row) :
  In r (dropna_value_year all_records) ->
  exists p, In p all_records /\
            indicator_code r = pending_indicator_code p /\
            indicator_name r = pending_indicator_name p /\
            pending_year p = Some (year r) /\
            value r = pending_value p /\ isna (value r) = false.
Proof.
  unfold dropna_value_year. intros Hin. apply in_flat_map in Hin.
  destruct Hin as [p [Hp Hr]]. exists p. split; [exact Hp|].
  destruct (pending_year p) as [y|]; [|contradiction].
  unfold notna in Hr. destruct (isna (pending_value p)) eqn:Hna; [contradiction|].
  destruct Hr as [<-|[]]. cbn. auto.
Qed.

Lemma sort_by_name_year_Sorted (df : DataFrame) :
  Sorted name_year_order (sort_by name_year_le df).
Proof.
  pose proof (sort_by_Sorted name_year_le name_year_le_total df) as Hs.
  induction Hs as [|r l Hrest IH Hhd]; constructor; [exact IH|].
  destruct Hhd as [|r' l' Hle]; constructor. apply name_year_le_order. exact Hle.
Qed.

(** What the script leaves, whatever the API answered. *)
Lemma ingest_main_cases (fetch : string -> option (list api_record))
      (fs : filesystem) :
  (exists all_records,
      collect_all fetch indicators = Done all_records /\ all_records <> [] /\
      ingest_main fetch fs
      = (mkFs (Some (mkTable csv_columns
                             (sort_by name_year_le (dropna_value_year all_records))))
              (main_dataset fs) (wide_format fs) (summary_stats fs),
         Saved (List.length (sort_by name_year_le (dropna_value_year all_records))))) \/
  (ingest_main fetch fs = (fs, NoDataFetched) /\
   collect_all fetch indicators = Done []) \/
  (ingest_main fetch fs = (fs, IngestRaised) /\
   collect_all fetch indicators = Uncaught).
Proof.
  unfold ingest_main.
  destruct (collect_all fetch indicators) as [[|p ps]|].
  - right. left. auto.
  - left. exists (p :: ps). split; [reflexivity|]. split; [discriminate | reflexivity].
  - right. right. auto.
Qed.


Lemma saved_rows (fetch : string -> option (list api_record))
      (all_records : list pending) (r : row) :
  collect_all fetch indicators = Done all_records ->
  In r (sort_by name_year_le (dropna_value_year all_records)) ->
  isna (value r) = false /\
  In (indicator_code r, indicator_name r) indicators /\
  exists data record,
    fetch (indicator_code r) = Some data /\ In record data /\
    api_value record = Some (value r).
Proof.
  intros Hall Hr. apply (proj1 (sort_by_In name_year_le r _)) in Hr.
  apply dropna_value_year_In in Hr.
  destruct Hr as [p [Hp [Hc [Hn [_ [Hv Hna]]]]]].
  destruct (collect_all_In fetch indicators all_records p Hall Hp) as [Hcat Hrec].
  rewrite Hv in Hna. rewrite Hc, Hn, Hv. auto.
Qed.

(** X18.  The ingest script never touches the processed files.  When it
    saves the raw file, the file has the six columns and its rows are
    sorted by indicator name and year; each holds a value that is not
    null, which a record fetched for its code carries, under a code and a
    name of the catalog.  When nothing was fetched or an exception
    escapes, no file is written. *)
Theorem ingest_output (fetch : string -> option (list api_record))
        (fs fs' : filesystem) (outcome : ingest_outcome) :
  ingest_main fetch fs = (fs', outcome) ->
  main_dataset fs' = main_dataset fs /\
  wide_format fs' = wide_format fs /\
  summary_stats fs' = summary_stats fs /\
  match outcome with
  | Saved n =>
      exists df,
        raw_artifact fs' = Some (mkTable csv_columns df) /\
        n = List.length df /\
        Sorted name_year_order df /\
        Forall (fun r =>
                  isna (value r) = false /\
                  In (indicator_code r, indicator_name r) indicators /\
                  exists data record,
                    fetch (indicator_code r) = Some data /\ In record data /\
                    api_value record = Some (value r)) df
  | NoDataFetched | IngestRaised => fs' = fs
  end.
Proof.
  destruct (ingest_main_cases fetch fs)
    as [[all_records [Hall [_ ->]]]|[[-> _]|[-> _]]];
    intros H; injection H as <- <-; cbn [main_dataset wide_format summary_stats];
    auto.
  split; [reflexivity|]. split; [reflexivity|]. split; [reflexivity|].
  eexists. cbn [raw_artifact]. split; [reflexivity|]. split; [reflexivity|].
  split; [apply sort_by_name_year_Sorted|].
  apply Forall_forall. intros r Hr. exact (saved_rows fetch all_records r Hall Hr).
Qed.

Lemma ingest_output_witness :
  exists df,
    raw_artifact (fst (ingest_main gdp_only absent_input))
    = Some (mkTable csv_columns df) /\
    Sorted name_year_order df /\ List.length df = 2%nat.
Proof.
  destruct (ingest_output gdp_only absent_input
              (fst (ingest_main gdp_only absent_input)) (Saved 2) eq_refl)
    as [_ [_ [_ [df [Hraw [Hlen [Hsorted _]]]]]]].
  exists df. auto.
Defined.




Lemma run_false_unchanged (fs fs' : filesystem) (log : list event) :
  run_transformation fs = (fs', log, Ok false) -> fs' = fs.
Proof.
  rewrite run_transformation_eq.
  destruct (raw_artifact fs) as [t|].
  - destruct (has_column t "year").
    + destruct (validate_raw_data t) as [findings|e]; [|discriminate].
      destruct (create_features (clean_data (records t))) as [df_features|e];
        [|discriminate].
      cbv zeta.
      destruct (pivot (create_time_series_analysis df_features)); discriminate.
    + intros H. injection H as <- _. reflexivity.
  - intros H. injection H as <- _. reflexivity.
Qed.

(** X20.  The transform task and the exit status.  The script ends with
    status 0 also when the run returns [False]: the task then finds the long
    table of an earlier run, if there is one, and returns its count as the
    result of this run, with every file unchanged; it raises only when no
    such table is left.  When the run raises, the task raises; the count it
    was given is never used. *)
Theorem run_transform_accepts_earlier_output (ingest_count : nat)
        (fs fs' : filesystem) (log : list event) (outcome : result bool) :
  run_transformation fs = (fs', log, outcome) ->
  (outcome = Ok false ->
   run_transform ingest_count fs
   = (fs, match main_dataset fs with
          | Some earlier => Returned (List.length earlier)
          | None => TaskRaised "Processed file not created"
          end)) /\
  (forall e, outcome = Raise e ->
             run_transform ingest_count fs
             = (fs', TaskRaised "Transformation script failed")) /\
  (outcome = Ok true ->
   exists processed_df,
     main_dataset fs' = Some processed_df /\
     run_transform ingest_count fs = (fs', Returned (List.length processed_df))).
Proof.
  intros Hrun. unfold run_transform, transform_script. rewrite Hrun.
  split; [|split].
  - intros ->. rewrite (run_false_unchanged _ _ _ Hrun). cbn [Z.eqb].
    destruct (main_dataset fs); reflexivity.
  - intros e ->. reflexivity.
  - intros ->. cbn [Z.eqb]. revert Hrun. rewrite run_transformation_eq.
    destruct (raw_artifact fs) as [t|]; [|discriminate].
    destruct (has_column t "year"); [|discriminate].
    destruct (validate_raw_data t) as [findings|e]; [|discriminate].
    destruct (create_features (clean_data (records t))) as [df_features|e];
      [|discriminate].
    cbv zeta.
    destruct (pivot (create_time_series_analysis df_features)); [|discriminate].
    intros H. injection H as <- _. cbn [main_dataset]. eexists. split; reflexivity.
Qed.

Lemma run_transform_accepts_earlier_output_witness :
  run_transform 0 earlier_run_fs = (earlier_run_fs, Returned 3).
Proof.
  exact (proj1 (run_transform_accepts_earlier_output 0 earlier_run_fs
                  earlier_run_fs _ (Ok false) eq_refl) eq_refl).
Defined.

Lemma collect_records_no_value (code name : string) (data : list api_record) :
  Forall (fun record => api_value record = None) data ->
  collect_records code name data = Done [].
Proof.
  induction 1 as [|record data Hrecord _ IH]; [reflexivity|].
  cbn [collect_records]. unfold collect_record. rewrite Hrecord, IH. reflexivity.
Qed.

Lemma collect_all_no_value (fetch : string -> option (list api_record))
      (catalog : list (string * string)) :
  (forall code name data,
      In (code, name) catalog -> fetch code = Some data ->
      Forall (fun record => api_value record = None) data) ->
  collect_all fetch catalog = Done [].
Proof.
  induction catalog as [|[code name] catalog IH]; intros Hnone; [reflexivity|].
  cbn [collect_all]. rewrite IH by (intros c n d Hin; apply (Hnone c n d); right; exact Hin).
  destruct (fetch code) as [data|] eqn:Hfetch; [|reflexivity].
  rewrite (collect_records_no_value code name data
             (Hnone code name data (or_introl eq_refl) Hfetch)).
  reflexivity.
Qed.

(** X21.  The ingest task without data.  When the API gives no record
    with a value for any code of the catalog, the script writes nothing and
    still ends with status 0: the task returns the count of the raw file an
    earlier run left, if there is one, and raises otherwise. *)
Theorem run_ingest_accepts_earlier_file (fetch : string -> option (list api_record))
        (fs : filesystem) :
  (forall code name data,
      In (code, name) indicators -> fetch code = Some data ->
      Forall (fun record => api_value record = None) data) ->
  run_ingest fetch fs
  = (fs, match raw_artifact fs with
         | Some earlier => Returned (List.length (records earlier))
         | None => TaskRaised "Output file not created"
         end).
Proof.
  intros Hnone. unfold run_ingest, ingest_script, ingest_main.
  rewrite (collect_all_no_value fetch indicators Hnone). cbn [Z.eqb].
  destruct (raw_artifact fs); reflexivity.
Qed.

Lemma run_ingest_accepts_earlier_file_witness :
  run_ingest nothing_fetched earlier_raw_fs = (earlier_raw_fs, Returned 0).
Proof.
  apply (run_ingest_accepts_earlier_file nothing_fetched earlier_raw_fs).
  intros code name data _ H. discriminate H.
Defined.

End IngestMore.

Import IngestMore.

(** ** The flow *)

Module FlowMore.
Import WarehouseProps IngestSamples.





(** X23.  The load task without processed files.  When one of the three
    processed files is missing, the script returns before it opens the
    database and still ends with status 0: the task returns the number of
    lines a database of an earlier run holds, with nothing changed, and
    raises only when there is no database or no fact table in it. *)
Theorem run_load_accepts_earlier_database (transform_count : nat) (s : store) :
  main_dataset (files s) = None \/ wide_format (files s) = None \/
  summary_stats (files s) = None ->
  run_load transform_count s
  = (s, match database s with
        | Some w =>
            match economic_indicators w with
            | Some table => Returned (List.length table)
            | None => TaskRaised "no such table: economic_indicators"
            end
        | None => TaskRaised "Warehouse database not created"
        end).
Proof.
  intros Hmissing. unfold run_load, warehouse_script.
  assert (Hscript :
            match main_dataset (files s), wide_format (files s),
                  summary_stats (files s) with
            | Some _, Some _, Some _ =>
                (mkStore (files s)
                   (Some (snd (load_processed_data
                                 (main_dataset (files s))
                                 (snd (create_warehouse_tables
                                         (connect_to_warehouse (database s))))))),
                 0)
            | _, _, _ => (s, 0)
            end = (s, 0)).
  { destruct Hmissing as [H|[H|H]]; rewrite H;
      repeat match goal with |- context [match ?x with Some _ => _ | None => _ end] =>
                               destruct x end; reflexivity. }
  cbv zeta. rewrite Hscript. cbn [Z.eqb].
  destruct (database s) as [w|]; [|reflexivity].
  destruct (economic_indicators w); reflexivity.
Qed.

Lemma run_load_accepts_earlier_database_witness :
  run_load 0 earlier_database = (earlier_database, Returned 1).
Proof.
  exact (run_load_accepts_earlier_database 0 earlier_database (or_introl eq_refl)).
Defined.

End FlowMore.

Import FlowMore.

(** ** Running the transform again *)

Module RerunMore.

(** X24.  Running the transform a second time changes nothing: on the
    files a run leaves, whether it returned or raised, the run prints the
    same, ends the same way and leaves the same files.  The outputs are
    computed from the raw file alone, which no run changes, and a run never
    reads what an earlier run wrote. *)
Theorem run_again_same (fs fs' : filesystem) (log : list event)
        (outcome : result bool) :
  run_transformation fs = (fs', log, outcome) ->
  run_transformation fs' = (fs', log, outcome).
Proof.
  rewrite run_transformation_eq.
  destruct (raw_artifact fs) as [t|] eqn:Hraw;
    [|intros H; injection H as <- <- <-;
      rewrite run_transformation_eq, Hraw; reflexivity].
  destruct (has_column t "year") eqn:Hyear;
    [|intros H; injection H as <- <- <-;
      rewrite run_transformation_eq, Hraw, Hyear; reflexivity].
  destruct (validate_raw_data t) as [findings|e] eqn:Hval;
    [|intros H; injection H as <- <- <-;
      rewrite run_transformation_eq, Hraw, Hyear, Hval; reflexivity].
  destruct (create_features (clean_data (records t))) as [df_features|e] eqn:Hcf;
    [|intros H; injection H as <- <- <-;
      rewrite run_transformation_eq, Hraw, Hyear, Hval, Hcf; reflexivity].
  cbv zeta.
  destruct (pivot (create_time_series_analysis df_features)) as [w|e] eqn:Hp;
    intros H; injection H as <- <- <-;
    rewrite run_transformation_eq; cbn [raw_artifact wide_format summary_stats];
    rewrite Hyear, Hval, Hcf; cbv zeta; rewrite Hp; reflexivity.
Qed.

Lemma run_again_same_witness :
  run_transformation (fst (fst (run_transformation trend_key_taken_fs)))
  = run_transformation trend_key_taken_fs.
Proof.
  destruct (run_transformation trend_key_taken_fs) as [[fs' log] outcome] eqn:Hrun.
  exact (run_again_same trend_key_taken_fs fs' log outcome Hrun).
Defined.

End RerunMore.

Import RerunMore.
